(** * MorningScraper: the search and resolution pipeline of
    [morningscraper/__init__.py], embedded and verified.

    Python [str] values are Rocq [string]s (one character per 8-bit code),
    the dictionaries built by [search] are finite maps from field names to
    strings, and the calls that leave the module ([make_soup],
    [SecurityPage.from_url], [page.get_data], [print]) are run against an
    explicit world and recorded in a trace. *)

From Stdlib Require Import String Ascii List Bool Arith ZArith Lia.
From stdpp Require Import base option list strings gmap.

Import ListNotations.
Local Open Scope string_scope.
Local Open Scope list_scope.

(** ** Exceptions *)

Module Py.

(** The exceptions the module can end with.  [DomainError] is the
    [Exception('Non morningstar.co.uk url %r' % url)] of [get_url];
    [AttributeError] and [IndexError] come from walking a row that lacks a
    cell, a link or an [href]; [KeyError] from reading a key a dictionary
    does not have; [ValueError] is what [strptime] and
    [urlsplit] raise; [ExternalError] carries whatever a collaborator
    outside the module raised. *)
Inductive exn (E : Type) : Type :=
| DomainError (url : string)
| AttributeError
| IndexError
| KeyError
| ValueError
| ExternalError (e : E).

Arguments DomainError {E} url.
Arguments AttributeError {E}.
Arguments IndexError {E}.
Arguments KeyError {E}.
Arguments ValueError {E}.
Arguments ExternalError {E} e.

(** A computation that returns or raises. *)
Inductive result (E A : Type) : Type :=
| Return (a : A)
| Raise (e : exn E).

Arguments Return {E A} a.
Arguments Raise {E A} e.

Definition bind {E A B} (m : result E A) (k : A -> result E B) : result E B :=
  match m with
  | Return a => k a
  | Raise e => Raise e
  end.

(** [s.startswith(p)] *)
Fixpoint startswith (s p : string) {struct p} : bool :=
  match p, s with
  | EmptyString, _ => true
  | String c p', String d s' => Ascii.eqb c d && startswith s' p'
  | String _ _, EmptyString => false
  end.

(** [s.endswith(p)]: [p] is no longer than [s] and the last [len(p)]
    characters of [s] are [p]. *)
Definition endswith (s p : string) : bool :=
  Nat.leb (String.length p) (String.length s) &&
  String.eqb (substring (String.length s - String.length p) (String.length p) s) p.

End Py.

Export Py.

#[global] Instance result_ret {E} : MRet (result E) := fun _ a => Return a.
#[global] Instance result_bind {E} : MBind (result E) := fun _ _ k m => bind m k.

(** ** Module constants *)

Definition SITE : string := "morningstar.co.uk".
Definition SITE_BASE : string := "http://www." +:+ SITE.
Definition SEARCH_BASE (q : string) : string :=
  SITE_BASE +:+ "/uk/funds/SecuritySearchResults.aspx?search=" +:+ q.

(** ** [fix_url] *)

(** Fully qualify url if domain missing: a leading ['/'] gets [SITE_BASE]
    in front, anything else is returned as it came. *)
Definition fix_url (url : string) : string :=
  if startswith url "/" then SITE_BASE +:+ url else url.

(** ** The parsed page

    [make_soup] hands back a BeautifulSoup tree.  The part of it that
    [search] walks is modelled here: tags with a name, the list-valued
    [class] attribute, the remaining attributes as a dictionary, and the
    children in document order; text nodes carry their string. *)

Module Soup.

#[local] Set Warnings "-register-all".

Inductive PageElement : Type :=
| NavigableString (s : string)
| Tag (name : string) (class_ : list string) (attrs : gmap string string)
      (contents : list PageElement).

(** [tag.descendants]: every node below [tag], parents before children,
    in document order. *)
Fixpoint descendants (e : PageElement) : list PageElement :=
  match e with
  | NavigableString _ => []
  | Tag _ _ _ contents => flat_map (fun c => c :: descendants c) contents
  end.

Definition has_name (name : string) (e : PageElement) : bool :=
  match e with
  | NavigableString _ => false
  | Tag n _ _ _ => String.eqb n name
  end.

(** the keyword filter [id=v] *)
Definition has_id (v : string) (e : PageElement) : bool :=
  match e with
  | NavigableString _ => false
  | Tag _ _ attrs _ =>
      match attrs !! "id" with
      | Some i => String.eqb i v
      | None => false
      end
  end.

(** the keyword filter [class_=c] for a single class name [c] *)
Definition has_class (c : string) (e : PageElement) : bool :=
  match e with
  | NavigableString _ => false
  | Tag _ classes _ _ => existsb (String.eqb c) classes
  end.

(** [e.find_all(name)] *)
Definition find_all (e : PageElement) (name : string) : list PageElement :=
  List.filter (has_name name) (descendants e).

(** [e.find_all(name, id=v)] *)
Definition find_all_id (e : PageElement) (name v : string) : list PageElement :=
  List.filter (fun d => has_name name d && has_id v d) (descendants e).

(** [e.find_all(name, class_=c)] *)
Definition find_all_class (e : PageElement) (name c : string) : list PageElement :=
  List.filter (fun d => has_name name d && has_class c d) (descendants e).

(** [e.name], as in [stock.td] and [td.a]: the first descendant with that
    tag name, or [None]. *)
Definition find (e : PageElement) (name : string) : option PageElement :=
  head (find_all e name).

(** [e.text]: the strings below [e], concatenated. *)
Fixpoint text (e : PageElement) : string :=
  match e with
  | NavigableString s => s
  | Tag _ _ _ contents => fold_right (fun c acc => text c +:+ acc) "" contents
  end.

(** [e.get(key)] *)
Definition get (e : PageElement) (key : string) : option string :=
  match e with
  | NavigableString _ => None
  | Tag _ _ attrs _ => attrs !! key
  end.

End Soup.

Export Soup.

(** ** [search]: the rows of the result tables *)

(** The dictionaries [search] returns. *)
Abbreviation candidate := (gmap string string).

Section Extract.

Context {E : Type}.

(** [x.attr] where [x] may be [None] *)
Definition attr_of {A} (x : option A) : result E A :=
  match x with
  | Some a => Return a
  | None => Raise AttributeError
  end.

(** [l[i]] *)
Definition index {A} (l : list A) (i : nat) : result E A :=
  match l !! i with
  | Some a => Return a
  | None => Raise IndexError
  end.

(** Lines 81-89: the dictionary of one stock row.  The values are computed
    in the order they are written. *)
Definition stock_item (stock : PageElement) : result E candidate :=
  td ← attr_of (find stock "td");
  let name := text td in
  a ← attr_of (find td "a");
  href ← attr_of (get a "href");
  let url := fix_url href in
  ticker ← index (find_all_class stock "td" "searchTicker") 0;
  currency ← index (find_all_class stock "td" "searchCurrency") 0;
  Return (<["name" := name]> (<["url" := url]> (<["type" := "Stock"]>
         (<["ticker" := text ticker]> (<["currency" := text currency]> ∅))))).

(** Lines 98-104: the dictionary of one fund or ETF row. *)
Definition fund_item (instrument_type : string) (fund : PageElement)
  : result E candidate :=
  let data := find_all fund "td" in
  d0 ← index data 0;
  let name := text d0 in
  a ← attr_of (find d0 "a");
  href ← attr_of (get a "href");
  let url := fix_url href in
  d1 ← index data 1;
  Return (<["name" := name]> (<["url" := url]> (<["type" := instrument_type]>
         (<["ISIN" := text d1]> ∅)))).

(** [for row in rows: results.append(item(row))] *)
Fixpoint append_rows (item : PageElement -> result E candidate)
    (rows : list PageElement) (results : list candidate)
  : result E (list candidate) :=
  match rows with
  | [] => Return results
  | row :: rows' =>
      c ← item row;
      append_rows item rows' (results ++ [c])
  end.

(** Lines 75-77 *)
Definition stock_tables (parsed_html : PageElement) : list PageElement :=
  find_all_id parsed_html "table" "ctl00_MainContent_stockTable".

(** Lines 92-94: ['ctl00_MainContent_{}Table'.format(instrument_type)] *)
Definition family_tables (parsed_html : PageElement) (instrument_type : string)
  : list PageElement :=
  find_all_id parsed_html "table"
    ("ctl00_MainContent_" +:+ instrument_type +:+ "Table").

(** The data rows of a table: [table.find_all('tr')[1:]] *)
Definition data_rows (table : PageElement) : list PageElement :=
  drop 1 (find_all table "tr").

(** Lines 78-89 *)
Definition search_stocks (parsed_html : PageElement) (results : list candidate)
  : result E (list candidate) :=
  match stock_tables parsed_html with
  | [] => Return results
  | table :: _ => append_rows stock_item (data_rows table) results
  end.

(** Lines 91-105: the loop over the instrument types, left at the [break]
    as soon as a type has a table. *)
Fixpoint search_families (parsed_html : PageElement)
    (instrument_types : list string) (results : list candidate)
  : result E (list candidate) :=
  match instrument_types with
  | [] => Return results
  | instrument_type :: rest =>
      match family_tables parsed_html instrument_type with
      | [] => search_families parsed_html rest results
      | table :: _ =>
          append_rows (fund_item instrument_type) (data_rows table) results
      end
  end.

(** Lines 74-105: what [search] collects from the parsed page. *)
Definition search_results (parsed_html : PageElement) : result E (list candidate) :=
  results ← search_stocks parsed_html [];
  search_families parsed_html ["fund"; "etf"] results.

End Extract.

(** ** The world outside the module

    [search], [get_url] and [get_data] print, fetch pages and hand them to
    the [security] module.  None of that code is part of this module, so
    it is a parameter: a world that the collaborators read and change, and
    what each of them answers. *)

(** [urlsplit(url)] *)
Record SplitResult : Type := {
  scheme : string;
  netloc : string;
  path : string;
  query : string;
  fragment : string;
}.

Record Collaborators : Type := {
  World : Type;
  (** what a collaborator may raise *)
  ExtError : Type;
  (** [SecurityPage] objects *)
  SecurityPage : Type;
  (** what [page.get_data()] returns *)
  Data : Type;
  (** [bool(data)], the test of [if data:] *)
  truth : Data -> bool;
  (** [urllib.quote] *)
  quote : string -> string;
  (** [urlsplit]; [None] when it raises [ValueError] *)
  urlsplit : string -> option SplitResult;
  make_soup : string -> World -> (ExtError + PageElement) * World;
  from_url : string -> World -> (ExtError + SecurityPage) * World;
  page_get_data : SecurityPage -> World -> (ExtError + Data) * World;
}.

(** What [verbose=True] prints. *)
Inductive output (D : Type) : Type :=
| SearchFor (ref : string)        (* 'Search for: %s' % ref *)
| ItemsFound (n : nat)            (* '%s item(s) found.' % len(results) *)
| Item (item : candidate)         (* print(item) *)
| NoItemsFound                    (* 'No items found.' *)
| Opening (url : string)          (* '\nOpening %s' % url *)
| Result (data : D).              (* print(result) *)

Arguments SearchFor {D} ref.
Arguments ItemsFound {D} n.
Arguments Item {D} item.
Arguments NoItemsFound {D}.
Arguments Opening {D} url.
Arguments Result {D} data.

(** What the module did to the outside, oldest first. *)
Inductive event (D : Type) : Type :=
| Print (o : output D)
| MakeSoup (url : string)
| FromUrl (url : string)
| GetData.

Arguments Print {D} o.
Arguments MakeSoup {D} url.
Arguments FromUrl {D} url.
Arguments GetData {D}.

(** An event that reaches for a page. *)
Definition is_fetch {D} (e : event D) : bool :=
  match e with
  | Print _ => false
  | MakeSoup _ | FromUrl _ | GetData => true
  end.

Definition fetches {D} (tr : list (event D)) : list (event D) :=
  List.filter is_fetch tr.

Section Pipeline.

Variable X : Collaborators.

Record state : Type := {
  world : World X;
  trace : list (event (Data X));
}.

(** A run of module code: from a state to a value or an exception, and
    the state it leaves. *)
Definition M (A : Type) : Type := state -> result (ExtError X) A * state.

#[global] Instance M_ret : MRet M := fun _ a st => (Return a, st).
#[global] Instance M_bind : MBind M := fun _ _ k m st =>
  match m st with
  | (Return a, st') => k a st'
  | (Raise e, st') => (Raise e, st')
  end.

Definition raise {A} (e : exn (ExtError X)) : M A := fun st => (Raise e, st).

Definition lift {A} (r : result (ExtError X) A) : M A := fun st => (r, st).

Definition log (e : event (Data X)) (st : state) : state :=
  {| world := world st; trace := trace st ++ [e] |}.

Definition print (o : output (Data X)) : M unit := fun st => (Return tt, log (Print o) st).

(** A call of a collaborator: recorded, then answered by the world. *)
Definition call {A} (e : event (Data X))
    (f : World X -> (ExtError X + A) * World X) : M A := fun st =>
  let '(r, w) := f (world st) in
  let st' := {| world := w; trace := trace st ++ [e] |} in
  match r with
  | inl err => (Raise (ExternalError err), st')
  | inr a => (Return a, st')
  end.

Definition when (b : bool) (m : M unit) : M unit := if b then m else mret tt.

(** [for item in results: print(item)] *)
Fixpoint print_items (results : list candidate) : M unit :=
  match results with
  | [] => mret tt
  | item :: rest => print (Item item);; print_items rest
  end.

(** [search(ref, verbose)] *)
Definition search (ref : string) (verbose : bool) : M (list candidate) :=
  when verbose (print (SearchFor ref));;
  parsed_html ← call (MakeSoup (SEARCH_BASE (quote X ref)))
                     (make_soup X (SEARCH_BASE (quote X ref)));
  results ← lift (search_results parsed_html);
  when verbose
    (match results with
     | _ :: _ => print (ItemsFound (length results));; print_items results
     | [] => print NoItemsFound
     end);;
  mret results.

(** Lines 179-183 of [get_url]: the page is opened and read. *)
Definition open_page (url : string) (verbose : bool) : M (Data X) :=
  page ← call (FromUrl url) (from_url X url);
  result ← call GetData (page_get_data X page);
  when verbose (print (Result result));;
  mret result.

(** [get_url(url, verbose)] *)
Definition get_url (url : string) (verbose : bool) : M (Data X) :=
  when verbose (print (Opening url));;
  match urlsplit X url with
  | None => raise ValueError
  | Some parts =>
      if negb (endswith (netloc parts) SITE)
      then raise (DomainError url)
      else open_page url verbose
  end.

(** [item['url']] *)
Definition getitem (item : candidate) (key : string) : M string :=
  match item !! key with
  | Some v => mret v
  | None => raise KeyError
  end.

(** Lines 145-148: the loop of [get_data]. *)
Fixpoint get_data_loop (results : list candidate) (verbose : bool)
    (output : list (Data X)) : M (list (Data X)) :=
  match results with
  | [] => mret output
  | item :: rest =>
      url ← getitem item "url";
      data ← get_url url verbose;
      get_data_loop rest verbose
        (if truth X data then output ++ [data] else output)
  end.

(** [get_data(ref, verbose)] *)
Definition get_data (ref : string) (verbose : bool) : M (list (Data X)) :=
  results ← search ref verbose;
  get_data_loop results verbose [].

End Pipeline.

(** ** [urlsplit]

    The standard library's [urllib.parse.urlsplit] as CPython 3.8.0 has it,
    for the default arguments ([scheme=''], [allow_fragments=True]).  It is
    the instance of [urlsplit] that the worked examples run; the theorems
    about [get_url] hold for any. *)

Module Urllib.

(** [s.split(c, 1)] when [c] occurs in [s]: the text before the first [c]
    and the text after it. *)
Fixpoint split_once (c : ascii) (s : string) : option (string * string) :=
  match s with
  | EmptyString => None
  | String a s' =>
      if Ascii.eqb a c then Some (EmptyString, s')
      else match split_once c s' with
           | Some (before, after) => Some (String a before, after)
           | None => None
           end
  end.

Definition between (lo hi : nat) (c : ascii) : bool :=
  Nat.leb lo (nat_of_ascii c) && Nat.leb (nat_of_ascii c) hi.

Definition is_lower (c : ascii) : bool := between 97 122 c.
Definition is_upper (c : ascii) : bool := between 65 90 c.
Definition is_decimal (c : ascii) : bool := between 48 57 c.

(** [c in scheme_chars]: letters, digits and ["+-."] *)
Definition scheme_char (c : ascii) : bool :=
  is_lower c || is_upper c || is_decimal c ||
  Ascii.eqb c "+" || Ascii.eqb c "-" || Ascii.eqb c ".".

Fixpoint forallb_string (p : ascii -> bool) (s : string) : bool :=
  match s with
  | EmptyString => true
  | String a s' => p a && forallb_string p s'
  end.

Fixpoint contains (c : ascii) (s : string) : bool :=
  match s with
  | EmptyString => false
  | String a s' => Ascii.eqb a c || contains c s'
  end.

(** [s.lower()] *)
Fixpoint lower (s : string) : string :=
  match s with
  | EmptyString => EmptyString
  | String a s' =>
      String (if is_upper a then ascii_of_nat (nat_of_ascii a + 32) else a)
             (lower s')
  end.

(** [_splitnetloc(url, 0)]: [url] is cut at the first of ['/'], ['?'],
    ['#'], or not at all. *)
Fixpoint splitnetloc (url : string) : string * string :=
  match url with
  | EmptyString => (EmptyString, EmptyString)
  | String a url' =>
      if Ascii.eqb a "/" || Ascii.eqb a "?" || Ascii.eqb a "#"
      then (EmptyString, url)
      else let '(domain, rest) := splitnetloc url' in (String a domain, rest)
  end.

(** The scheme, when the text before the first [':'] is one, and what is
    left of the url. *)
Definition split_scheme (url : string) : string * string :=
  match split_once ":" url with
  | Some (String a pre as before, rest) =>
      if String.eqb before "http" then ("http", rest)
      else if forallb_string scheme_char before &&
              (String.eqb rest "" || negb (forallb_string is_decimal rest))
           then (lower before, rest)
           else ("", url)
  | _ => ("", url)
  end.

Definition urlsplit (url : string) : option SplitResult :=
  let '(scheme, url) := split_scheme url in
  let '(netloc, url) :=
    match url with
    | String "/" (String "/" after) => splitnetloc after
    | _ => ("", url)
    end in
  if (contains "[" netloc && negb (contains "]" netloc)) ||
     (contains "]" netloc && negb (contains "[" netloc))
  then None
  else
    let '(url, fragment) :=
      match split_once "#" url with
      | Some (u, f) => (u, f)
      | None => (url, "")
      end in
    let '(url, query) :=
      match split_once "?" url with
      | Some (u, q) => (u, q)
      | None => (url, "")
      end in
    Some {| scheme := scheme; netloc := netloc; path := url;
            query := query; fragment := fragment |}.


End Urllib.

(** ** [dmy_2_date]

    [datetime.strptime(value, '%d/%m/%Y').date()].  [strptime] compiles the
    format to the regular expression
    [(?P<d>3[0-1]|[1-2]\d|0[1-9]|[1-9]| [1-9])/(?P<m>1[0-2]|0[1-9]|[1-9])/(?P<Y>\d\d\d\d)],
    matches it at the start of the text, refuses text that goes on after
    the match, converts the three groups with [int] and builds the date,
    which checks the calendar.  Every refusal is a [ValueError]. *)

Module Strptime.

Import Urllib.
Local Open Scope Z_scope.

(** A pattern reads a prefix of the text; it answers with every way to do
    so, the one the matcher tries first in front: the text it read and the
    text that is left. *)
Definition pattern : Type := string -> list (string * string).

(** one character of a class *)
Definition chr (p : ascii -> bool) : pattern := fun s =>
  match s with
  | String a r => if p a then [(String a EmptyString, r)] else []
  | EmptyString => []
  end.

(** [r1 r2] *)
Definition cat (r1 r2 : pattern) : pattern := fun s =>
  flat_map (fun '(t1, s1) =>
              List.map (fun '(t2, s2) => (t1 +:+ t2, s2)) (r2 s1))
           (r1 s).

(** [r1|r2] *)
Definition alt (r1 r2 : pattern) : pattern := fun s => r1 s ++ r2 s.

Definition lit (c : ascii) : ascii -> bool := Ascii.eqb c.
(** [[lo-hi]] for two digits *)
Definition range (lo hi : nat) : ascii -> bool := between (48 + lo)%nat (48 + hi)%nat.
(** [\d], over 8-bit characters *)
Definition digit : ascii -> bool := is_decimal.

(** [3[0-1]|[1-2]\d|0[1-9]|[1-9]| [1-9]] *)
Definition re_d : pattern :=
  alt (cat (chr (lit "3")) (chr (range 0 1)))
 (alt (cat (chr (range 1 2)) (chr digit))
 (alt (cat (chr (lit "0")) (chr (range 1 9)))
 (alt (chr (range 1 9))
      (cat (chr (lit " ")) (chr (range 1 9)))))).

(** [1[0-2]|0[1-9]|[1-9]] *)
Definition re_m : pattern :=
  alt (cat (chr (lit "1")) (chr (range 0 2)))
 (alt (cat (chr (lit "0")) (chr (range 1 9)))
      (chr (range 1 9))).

(** [\d\d\d\d] *)
Definition re_Y : pattern :=
  cat (chr digit) (cat (chr digit) (cat (chr digit) (chr digit))).

Definition re_slash : pattern := chr (lit "/").

(** [format_regex.match(data_string)]: the groups [d], [m], [Y] of the
    first match and the text after it, or [None]. *)
Definition regex_match (data_string : string)
  : option (string * string * string * string) :=
  head (flat_map (fun '(d, s1) =>
        flat_map (fun '(_, s2) =>
        flat_map (fun '(m, s3) =>
        flat_map (fun '(_, s4) =>
        List.map (fun '(Y, s5) => (d, m, Y, s5)) (re_Y s4))
                 (re_slash s3))
                 (re_m s2))
                 (re_slash s1))
                 (re_d data_string)).

(** [int(t)] on the text of a group, which is digits with at most a blank
    in front: the blank is dropped, the digits are read in base ten. *)
Fixpoint int_digits (t : string) (acc : Z) : Z :=
  match t with
  | EmptyString => acc
  | String a t' =>
      if Ascii.eqb a " " then int_digits t' acc
      else int_digits t' (10 * acc + (Z.of_nat (nat_of_ascii a) - 48))
  end.

Definition int (t : string) : Z := int_digits t 0.

(** [datetime.date] *)
Record date : Type := { year : Z; month : Z; day : Z }.

Definition is_leap (year : Z) : bool :=
  (year mod 4 =? 0) && (negb (year mod 100 =? 0) || (year mod 400 =? 0)).

Definition days_in_month (year month : Z) : Z :=
  if month =? 2 then (if is_leap year then 29 else 28)
  else if (month =? 4) || (month =? 6) || (month =? 9) || (month =? 11) then 30
  else 31.

(** The check of [date(year, month, day)]: [MINYEAR <= year <= MAXYEAR],
    [1 <= month <= 12], [1 <= day <= days_in_month]. *)
Definition valid_date (year month day : Z) : bool :=
  (1 <=? year) && (year <=? 9999) &&
  (1 <=? month) && (month <=? 12) &&
  (1 <=? day) && (day <=? days_in_month year month).

(** [datetime.strptime(value, '%d/%m/%Y').date()] *)
Definition strptime_dmY {E} (value : string) : result E date :=
  match regex_match value with
  | None => Raise ValueError                  (* does not match format *)
  | Some (d, m, Y, rest) =>
      if negb (String.eqb rest "") then Raise ValueError   (* unconverted data remains *)
      else
        let year := int Y in
        let month := int m in
        let day := int d in
        if valid_date year month day
        then Return {| year := year; month := month; day := day |}
        else Raise ValueError                 (* day is out of range for month *)
  end.

End Strptime.

Export Strptime.

(** Convert dd/mm/yyyy date string into python date *)
Definition dmy_2_date {E} (value : string) : result E date := strptime_dmY value.

(** ** Reading a page: the vocabulary of the properties *)

(** The data rows of the first table with the given [id], none when the
    page has no such table. *)
Definition rows_of (parsed_html : PageElement) (id : string) : list PageElement :=
  match find_all_id parsed_html "table" id with
  | [] => []
  | table :: _ => data_rows table
  end.

(** The link target of a row: the [href] of the first link in its first
    cell. *)
Definition row_href (row : PageElement) : option string :=
  td ← find row "td"; a ← find td "a"; get a "href".

(** The family whose table [search] reads: the first of ["fund"], ["etf"]
    that has a table in the page. *)
Definition first_family (parsed_html : PageElement) : option string :=
  List.find (fun ty => match family_tables parsed_html ty with
                       | [] => false | _ :: _ => true end)
            ["fund"; "etf"].

(** The rows [search] turns into dictionaries, in the order it does. *)
Definition searched_rows (parsed_html : PageElement) : list PageElement :=
  rows_of parsed_html "ctl00_MainContent_stockTable" ++
  match first_family parsed_html with
  | Some ty => rows_of parsed_html ("ctl00_MainContent_" +:+ ty +:+ "Table")
  | None => []
  end.

(** The [type] of a dictionary is the one [search] gives a stock. *)
Definition is_stock (c : candidate) : bool :=
  match c !! "type" with
  | Some ty => String.eqb ty "Stock"
  | None => false
  end.

(** [get_data] resolves every dictionary of [search] in turn. *)
Definition resolve_all (X : Collaborators) (results : list candidate)
    (verbose : bool) : M X (list (Data X)) :=
  mapM (fun item => url ← getitem X item "url"; get_url X url verbose) results.

(** The state [get_url] is in once it has printed what it opens. *)
Definition opened (X : Collaborators) (url : string) (verbose : bool)
    (st : state X) : state X :=
  if verbose then log X (Print (Opening url)) st else st.

(** ** Date texts: the vocabulary of the properties *)


(** A day as [strptime] reads it: one digit, two digits, or a blank and a
    digit. *)
Definition day_field (t : string) : bool :=
  match t with
  | String a EmptyString => digit a
  | String a (String b EmptyString) => (digit a || Ascii.eqb a " ") && digit b
  | _ => false
  end.

(** A month: one digit or two. *)
Definition month_field (t : string) : bool :=
  match t with
  | String a EmptyString => digit a
  | String a (String b EmptyString) => digit a && digit b
  | _ => false
  end.

(** A year: four digits. *)
Definition year_field (t : string) : bool :=
  match t with
  | String a (String b (String c (String d EmptyString))) =>
      digit a && digit b && digit c && digit d
  | _ => false
  end.

(** A pattern and the slash after it: the text the pattern read and the
    text after the slash. *)
Definition then_slash (p : pattern) : pattern := fun s =>
  flat_map (fun '(t, s1) => List.map (fun '(_, s2) => (t, s2)) (re_slash s1)) (p s).

(** [text] is a day, a month and a year between slashes and names a date
    of the calendar. *)
Definition names_date (text : string) (dt : date) : Prop :=
  exists d m y,
    text = d +:+ "/" +:+ m +:+ "/" +:+ y /\
    day_field d = true /\ month_field m = true /\ year_field y = true /\
    valid_date (int y) (int m) (int d) = true /\
    dt = {| year := int y; month := int m; day := int d |}.

(** ** Rows that [search] can read *)

(** A stock row has what [search] reads off it: a link with a target in
    its first cell, a ticker cell and a currency cell. *)
Definition stock_row_ok (row : PageElement) : bool :=
  match row_href row with
  | Some _ =>
      negb (Nat.eqb (length (find_all_class row "td" "searchTicker")) 0) &&
      negb (Nat.eqb (length (find_all_class row "td" "searchCurrency")) 0)
  | None => false
  end.

(** A fund or ETF row has what [search] reads off it: a link with a target
    in its first cell, and a second cell. *)
Definition fund_row_ok (row : PageElement) : bool :=
  match row_href row with
  | Some _ => Nat.leb 2 (length (find_all row "td"))
  | None => false
  end.

(** The rows of the family table that [search] reads. *)
Definition family_rows (parsed_html : PageElement) : list PageElement :=
  match first_family parsed_html with
  | Some ty => rows_of parsed_html ("ctl00_MainContent_" +:+ ty +:+ "Table")
  | None => []
  end.

(** The keys of the dictionary of a stock row, and of a fund or ETF row. *)
Definition stock_keys : gset string :=
  {["name"; "url"; "type"; "ticker"; "currency"]}.
Definition fund_keys : gset string := {["name"; "url"; "type"; "ISIN"]}.

(** ** Runs seen from outside *)

(** Two states that the outside cannot tell apart: the same world and the
    same fetches, whatever was printed. *)
Definition same_outside {X : Collaborators} (st1 st2 : state X) : Prop :=
  world X st1 = world X st2 /\ fetches (trace X st1) = fetches (trace X st2).

(** Two runs that end alike: the same value or exception, in states the
    outside cannot tell apart. *)
Definition agree {X : Collaborators} {A}
    (r1 r2 : result (ExtError X) A * state X) : Prop :=
  fst r1 = fst r2 /\ same_outside (snd r1) (snd r2).

(** Two computations that end alike from states the outside cannot tell
    apart. *)
Definition agrees (X : Collaborators) {A} (m1 m2 : M X A) : Prop :=
  forall st1 st2, same_outside st1 st2 -> agree (m1 st1) (m2 st2).

(** A computation that only prints. *)
Definition prints_only (X : Collaborators) (m : M X unit) : Prop :=
  forall st, fst (m st) = Return tt /\ same_outside (snd (m st)) st.

(** The fetches [get_data] makes for one dictionary. *)
Definition fetches_of {X : Collaborators} (item : candidate) : list (event (Data X)) :=
  [FromUrl (default "" (item !! "url")); GetData].

(** What [search] prints last when [verbose]: the number of dictionaries
    and each of them, or that there are none (lines 107-113). *)
Definition report (X : Collaborators) (verbose : bool)
    (results : list candidate) : M X unit :=
  when X verbose
    match results with
    | [] => print X NoItemsFound
    | _ :: _ => print X (ItemsFound (length results));; print_items X results
    end.

(** ** Worked examples: pages and a world *)

Module Demo.

Definition cell (class_ : list string) (contents : list PageElement) : PageElement :=
  Tag "td" class_ ∅ contents.
Definition link (href label : string) : PageElement :=
  Tag "a" [] {["href" := href]} [NavigableString label].
Definition row (cells : list PageElement) : PageElement := Tag "tr" [] ∅ cells.
Definition table (id : string) (rows : list PageElement) : PageElement :=
  Tag "table" [] {["id" := id]} rows.
Definition header : PageElement := row [Tag "th" [] ∅ [NavigableString "Name"]].

Definition stock_row (href name ticker currency : string) : PageElement :=
  row [cell [] [link href name];
       cell ["searchTicker"] [NavigableString ticker];
       cell ["searchCurrency"] [NavigableString currency]].

Definition fund_row (href name isin : string) : PageElement :=
  row [cell [] [link href name]; cell [] [NavigableString isin]].

(** A results page that lists its ETF table first, its fund table second
    and its stock table last. *)
Definition page_all : PageElement :=
  Tag "[document]" [] ∅
    [table "ctl00_MainContent_etfTable"
       [header; fund_row "/etf/1" "Gamma ETF" "IE0000000001"];
     table "ctl00_MainContent_fundTable"
       [header; fund_row "/fund/1" "Beta Fund" "GB0000000001"];
     table "ctl00_MainContent_stockTable"
       [header; stock_row "/stock/1" "Acme Corp" "ACM" "USD";
                stock_row "/stock/2" "Apex Plc" "APX" "GBP"]].

(** A fund table with nothing but its header row, and an ETF table with a
    data row. *)
Definition page_empty_fund : PageElement :=
  Tag "[document]" [] ∅
    [table "ctl00_MainContent_fundTable" [header];
     table "ctl00_MainContent_etfTable"
       [header; fund_row "/etf/1" "Gamma ETF" "IE0000000001"]].

(** A fund row whose link is relative to the page it is on. *)
Definition page_relative : PageElement :=
  Tag "[document]" [] ∅
    [table "ctl00_MainContent_fundTable"
       [header; fund_row "x.html" "Beta Fund" "GB0000000001"]].

(** A world that serves [page_all] for every search and has data for every
    page but the one of Apex Plc; [page.get_data()] answers [None] there. *)
Definition env : Collaborators := {|
  World := unit;
  ExtError := Empty_set;
  SecurityPage := string;
  Data := option string;
  truth := fun data => match data with Some _ => true | None => false end;
  quote := fun ref => ref;
  urlsplit := Urllib.urlsplit;
  make_soup := fun _ w => (inr page_all, w);
  from_url := fun url w => (inr url, w);
  page_get_data := fun page w =>
    (inr (if String.eqb page "http://www.morningstar.co.uk/stock/2"
          then None else Some page), w);
|}.

Definition start : state env := Build_state env tt [].

(** The dictionaries [search] makes of [page_all] and [page_relative]. *)
Definition acme : candidate :=
  <["name" := "Acme Corp"]> (<["url" := "http://www.morningstar.co.uk/stock/1"]>
  (<["type" := "Stock"]> (<["ticker" := "ACM"]> (<["currency" := "USD"]> ∅)))).
Definition apex : candidate :=
  <["name" := "Apex Plc"]> (<["url" := "http://www.morningstar.co.uk/stock/2"]>
  (<["type" := "Stock"]> (<["ticker" := "APX"]> (<["currency" := "GBP"]> ∅)))).
Definition beta : candidate :=
  <["name" := "Beta Fund"]> (<["url" := "http://www.morningstar.co.uk/fund/1"]>
  (<["type" := "fund"]> (<["ISIN" := "GB0000000001"]> ∅))).
Definition beta_relative : candidate :=
  <["name" := "Beta Fund"]> (<["url" := "x.html"]>
  (<["type" := "fund"]> (<["ISIN" := "GB0000000001"]> ∅))).

(** A stock row without a ticker cell. *)
Definition page_no_ticker : PageElement :=
  Tag "[document]" [] ∅
    [table "ctl00_MainContent_stockTable"
       [header;
        row [cell [] [link "/stock/1" "Acme Corp"];
             cell ["searchCurrency"] [NavigableString "USD"]]]].

(** The world of [env], but every search is answered with
    [page_relative]. *)
Definition env_relative : Collaborators := {|
  World := unit;
  ExtError := Empty_set;
  SecurityPage := string;
  Data := option string;
  truth := fun data => match data with Some _ => true | None => false end;
  quote := fun ref => ref;
  urlsplit := Urllib.urlsplit;
  make_soup := fun _ w => (inr page_relative, w);
  from_url := fun url w => (inr url, w);
  page_get_data := fun page w => (inr (Some page), w);
|}.

Definition start_relative : state env_relative := Build_state env_relative tt [].

End Demo.

(** * Properties *)

(** ** [fix_url] *)

Example fix_url_relative :
  fix_url "/uk/funds/x" = "http://www.morningstar.co.uk/uk/funds/x".
Proof. reflexivity. Qed.

Example fix_url_absolute : fix_url "http://other.com/x" = "http://other.com/x".
Proof. reflexivity. Qed.

(** C5: [fix_url] puts the site base in front of a url that begins with
    ['/'] and returns every other url unchanged; the two documented
    examples evaluate as stated.  [fix_url] is a function from strings to
    strings: it reads and writes nothing else. *)
Theorem fix_url_spec :
  (forall url : string,
      (startswith url "/" = true ->
       fix_url url = "http://www.morningstar.co.uk" +:+ url) /\
      (startswith url "/" = false -> fix_url url = url)) /\
  fix_url "/uk/funds/x" = "http://www.morningstar.co.uk/uk/funds/x" /\
  fix_url "http://other.com/x" = "http://other.com/x".
Proof.
  split; [| split; reflexivity].
  intros url; unfold fix_url; split; intros ->; reflexivity.
Qed.

(** C9: normalizing twice is normalizing once, because a normalized url
    begins with ['h'] or did not begin with ['/'] in the first place. *)
Theorem fix_url_idempotent (url : string) : fix_url (fix_url url) = fix_url url.
Proof.
  unfold fix_url.
  destruct (startswith url "/") eqn:Hs.
  - reflexivity.
  - rewrite Hs. reflexivity.
Qed.


Lemma startswith_slash (url : string) :
  startswith url "/" = true <-> exists rest, url = String "/" rest.
Proof.
  split.
  - destruct url as [|a rest]; [done|].
    unfold startswith. destruct (Ascii.eqb_spec "/" a) as [<-|]; [eauto|done].
  - by intros [rest ->].
Qed.

(** ** The rows of a page and the dictionaries made of them *)

Section ExtractFacts.

Context {E : Type}.

Implicit Types (row table parsed_html : PageElement) (c : candidate).
Implicit Types (rows : list PageElement) (results : list candidate).

Lemma append_rows_mapM (item : PageElement -> result E candidate) rows results :
  append_rows item rows results =
  match mapM item rows with
  | Return cs => Return (results ++ cs)
  | Raise e => Raise e
  end.
Proof.
  revert results; induction rows as [|row rows IH]; intros results; simpl.
  - by rewrite app_nil_r.
  - unfold mbind, result_bind; simpl.
    destruct (item row) as [c|e]; simpl; [|done].
    rewrite IH. destruct (mapM item rows) as [cs|e]; simpl; [|done].
    by rewrite <- app_assoc.
Qed.

Lemma mapM_Forall2 (item : PageElement -> result E candidate) rows cs :
  mapM item rows = Return cs ->
  Forall2 (fun row c => item row = Return c) rows cs.
Proof.
  revert cs; induction rows as [|row rows IH]; intros cs; simpl.
  - intros [= <-]. constructor.
  - unfold mbind, result_bind; simpl.
    destruct (item row) as [c|e] eqn:Hc; simpl; [|done].
    destruct (mapM item rows) as [cs'|e]; simpl; [|done].
    intros [= <-]. constructor; auto.
Qed.

Lemma append_rows_Return (item : PageElement -> result E candidate) rows results out :
  append_rows item rows results = Return out ->
  exists cs, out = results ++ cs /\
             Forall2 (fun row c => item row = Return c) rows cs.
Proof.
  rewrite append_rows_mapM.
  destruct (mapM item rows) as [cs|e] eqn:Hm; [|done].
  intros [= <-]. exists cs. split; [done|]. by apply mapM_Forall2.
Qed.

Lemma stock_item_Return row c :
  stock_item (E:=E) row = Return c ->
  c !! "type" = Some "Stock" /\
  exists href, row_href row = Some href /\ c !! "url" = Some (fix_url href).
Proof.
  unfold stock_item, row_href, mbind, result_bind, attr_of, index; simpl.
  destruct (find row "td") as [td|]; simpl; [|done].
  destruct (find td "a") as [a|]; simpl; [|done].
  destruct (get a "href") as [href|]; simpl; [|done].
  destruct (_ !! 0); simpl; [|done].
  destruct (_ !! 0); simpl; [|done].
  intros [= <-]. split; [done|]. exists href. done.
Qed.

Lemma fund_item_Return instrument_type row c :
  fund_item (E:=E) instrument_type row = Return c ->
  c !! "type" = Some instrument_type /\
  exists href, row_href row = Some href /\ c !! "url" = Some (fix_url href).
Proof.
  unfold fund_item, row_href, find, mbind, result_bind, attr_of, index; simpl.
  rewrite head_lookup.
  destruct (find_all row "td" !! 0) as [td|]; simpl; [|done].
  destruct (head (find_all td "a")) as [a|]; simpl; [|done].
  destruct (get a "href") as [href|]; simpl; [|done].
  destruct (_ !! 1); simpl; [|done].
  intros [= <-]. split; [done|]. exists href. done.
Qed.

Lemma family_tables_id parsed_html ty :
  family_tables parsed_html ty =
  find_all_id parsed_html "table" ("ctl00_MainContent_" +:+ ty +:+ "Table").
Proof. reflexivity. Qed.

(** [search_results] is the stock rows, then the rows of the first family
    that has a table. *)
Lemma search_results_eq parsed_html :
  search_results (E:=E) parsed_html =
  stocks ← mapM stock_item (rows_of parsed_html "ctl00_MainContent_stockTable");
  funds ← match first_family parsed_html with
          | Some ty => mapM (fund_item ty)
                         (rows_of parsed_html ("ctl00_MainContent_" +:+ ty +:+ "Table"))
          | None => Return []
          end;
  Return (stocks ++ funds).
Proof.
  unfold search_results, search_stocks, rows_of, stock_tables, first_family.
  unfold mbind, result_bind; simpl.
  set (st := find_all_id parsed_html "table" "ctl00_MainContent_stockTable").
  assert (Hs : match st with
               | [] => Return []
               | table :: _ => append_rows (E:=E) stock_item (data_rows table) []
               end =
               match mapM stock_item (match st with [] => [] | t :: _ => data_rows t end) with
               | Return cs => Return cs | Raise e => Raise e end).
  { destruct st; [done|]. by rewrite append_rows_mapM. }
  rewrite Hs. clear Hs.
  destruct (mapM stock_item _) as [stocks|e]; simpl; [|done].
  rewrite !family_tables_id.
  destruct (find_all_id parsed_html "table" ("ctl00_MainContent_" +:+ "fund" +:+ "Table"))
    as [|ft ?] eqn:Hf; simpl.
  - destruct (find_all_id parsed_html "table" ("ctl00_MainContent_" +:+ "etf" +:+ "Table"))
      as [|et ?] eqn:He; simpl.
    + by rewrite app_nil_r.
    + simpl in He. rewrite He, append_rows_mapM. by destruct (mapM _ _).
  - simpl in Hf. rewrite Hf, append_rows_mapM. by destruct (mapM _ _).
Qed.

End ExtractFacts.

(** ** [search]: what the page contributes *)

Section SearchFacts.

Context {E : Type}.

Implicit Types (row table parsed_html : PageElement) (c : candidate).
Implicit Types (rows : list PageElement) (results : list candidate).

Lemma first_family_cases parsed_html ty :
  first_family parsed_html = Some ty -> ty = "fund" \/ ty = "etf".
Proof.
  unfold first_family; simpl.
  destruct (family_tables parsed_html "fund"); [|intros [= <-]; by left].
  destruct (family_tables parsed_html "etf"); [done|intros [= <-]; by right].
Qed.

Lemma Forall2_Forall_r {A B} (R : A -> B -> Prop) (P : B -> Prop) l k :
  Forall2 R l k -> (forall a b, R a b -> P b) -> Forall P k.
Proof. induction 1; intros HP; constructor; eauto. Qed.

(** The shape of every answer of [search_results]. *)
Lemma search_results_Return parsed_html results :
  search_results (E:=E) parsed_html = Return results ->
  exists stocks funds,
    results = stocks ++ funds /\
    Forall2 (fun row c => stock_item (E:=E) row = Return c)
            (rows_of parsed_html "ctl00_MainContent_stockTable") stocks /\
    match first_family parsed_html with
    | Some ty =>
        Forall2 (fun row c => fund_item (E:=E) ty row = Return c)
                (rows_of parsed_html ("ctl00_MainContent_" +:+ ty +:+ "Table")) funds
    | None => funds = []
    end.
Proof.
  rewrite search_results_eq. unfold mbind, result_bind; simpl.
  destruct (mapM stock_item _) as [stocks|e] eqn:Hs; simpl; [|done].
  destruct (first_family parsed_html) as [ty|] eqn:Hty.
  - destruct (mapM (fund_item ty) _) as [funds|e] eqn:Hf; simpl; [|done].
    intros [= <-]. exists stocks, funds.
    split; [done|]. split; by apply mapM_Forall2.
  - simpl. intros [= <-]. exists stocks, []. split; [done|].
    split; [by apply mapM_Forall2|done].
Qed.

Lemma stocks_are_stock rows (stocks : list candidate) :
  Forall2 (fun row c => stock_item (E:=E) row = Return c) rows stocks ->
  Forall (fun c => is_stock c = true) stocks.
Proof.
  intros H. eapply Forall2_Forall_r; [exact H|].
  intros row c Hc. apply stock_item_Return in Hc as [Hty _].
  unfold is_stock. by rewrite Hty.
Qed.

Lemma funds_are_not_stock parsed_html ty rows (funds : list candidate) :
  first_family parsed_html = Some ty ->
  Forall2 (fun row c => fund_item (E:=E) ty row = Return c) rows funds ->
  Forall (fun c => c !! "type" = Some ty /\ is_stock c = false) funds.
Proof.
  intros Hty H. eapply Forall2_Forall_r; [exact H|].
  intros row c Hc. apply fund_item_Return in Hc as [Hc _].
  split; [done|]. unfold is_stock. rewrite Hc.
  by destruct (first_family_cases _ _ Hty) as [-> | ->].
Qed.

(** C7: in every answer of [search] the stock dictionaries come first, made
    of the rows of the stock table in row order, and the fund or ETF
    dictionaries follow, made of the rows of their table in row order,
    wherever the tables stand in the page: a dictionary that is a stock
    never has a larger index than one that is not.  A page whose stock,
    fund and ETF tables have no data rows is answered with the empty
    list, not with an exception. *)
Theorem search_stocks_first parsed_html :
  (forall results,
      search_results (E:=E) parsed_html = Return results ->
      (exists stocks funds,
          results = stocks ++ funds /\
          Forall2 (fun row c => stock_item (E:=E) row = Return c)
                  (rows_of parsed_html "ctl00_MainContent_stockTable") stocks /\
          Forall (fun c => is_stock c = true) stocks /\
          match first_family parsed_html with
          | Some ty =>
              Forall2 (fun row c => fund_item (E:=E) ty row = Return c)
                      (rows_of parsed_html ("ctl00_MainContent_" +:+ ty +:+ "Table"))
                      funds
          | None => funds = []
          end /\
          Forall (fun c => is_stock c = false) funds) /\
      (forall i j ci cj,
          results !! i = Some ci -> results !! j = Some cj ->
          is_stock ci = true -> is_stock cj = false -> i < j)) /\
  (rows_of parsed_html "ctl00_MainContent_stockTable" = [] ->
   rows_of parsed_html "ctl00_MainContent_fundTable" = [] ->
   rows_of parsed_html "ctl00_MainContent_etfTable" = [] ->
   search_results (E:=E) parsed_html = Return []).
Proof.
  split.
  - intros results Hres.
    destruct (search_results_Return _ _ Hres) as (stocks & funds & -> & Hs & Hf).
    assert (Hst : Forall (fun c => is_stock c = true) stocks)
      by (eapply stocks_are_stock; eauto).
    assert (Hfu : Forall (fun c => is_stock c = false) funds).
    { destruct (first_family parsed_html) as [ty|] eqn:Hty; [|subst; constructor].
      eapply Forall_impl; [eapply funds_are_not_stock; eauto|]. by intros c [_ ?]. }
    split.
    + exists stocks, funds. repeat split; auto.
    + intros i j ci cj Hi Hj Hci Hcj.
      assert (Hlt : i < length stocks).
      { destruct (decide (i < length stocks)) as [|Hge]; [done|].
        rewrite lookup_app_r in Hi by lia.
        rewrite Forall_lookup in Hfu. specialize (Hfu _ _ Hi). congruence. }
      assert (Hge : length stocks <= j).
      { destruct (decide (length stocks <= j)) as [|Hlt']; [done|].
        rewrite lookup_app_l in Hj by lia.
        rewrite Forall_lookup in Hst. specialize (Hst _ _ Hj). congruence. }
      lia.
  - intros Hs Hf He. rewrite search_results_eq, Hs.
    unfold mbind, result_bind; simpl.
    destruct (first_family parsed_html) as [ty|] eqn:Hty; [|done].
    destruct (first_family_cases _ _ Hty) as [-> | ->].
    + change ("ctl00_MainContent_" +:+ "fund" +:+ "Table")
        with "ctl00_MainContent_fundTable".
      by rewrite Hf.
    + change ("ctl00_MainContent_" +:+ "etf" +:+ "Table")
        with "ctl00_MainContent_etfTable".
      by rewrite He.
Qed.

(** C2: when the page has a fund table and an ETF table and both have data
    rows, [search] leaves the loop over the instrument types after the fund
    table: its answer is computed from the stock rows and the fund rows
    alone, the dictionaries after the stocks are made one per fund row with
    the instrument type ["fund"], and none has the instrument type
    ["etf"]. *)
Theorem search_fund_before_etf parsed_html fund_table fund_tables etf_table etf_tables :
  family_tables parsed_html "fund" = fund_table :: fund_tables ->
  data_rows fund_table <> [] ->
  family_tables parsed_html "etf" = etf_table :: etf_tables ->
  data_rows etf_table <> [] ->
  search_results (E:=E) parsed_html =
    (stocks ← search_stocks parsed_html [];
     append_rows (fund_item "fund") (data_rows fund_table) stocks) /\
  forall results,
    search_results (E:=E) parsed_html = Return results ->
    exists stocks funds,
      results = stocks ++ funds /\
      Forall2 (fun row c => stock_item (E:=E) row = Return c)
              (rows_of parsed_html "ctl00_MainContent_stockTable") stocks /\
      Forall2 (fun row c => fund_item (E:=E) "fund" row = Return c)
              (data_rows fund_table) funds /\
      Forall (fun c => c !! "type" <> Some "etf") results.
Proof.
  intros Hfund _ _ _.
  assert (Hfam : first_family parsed_html = Some "fund").
  { unfold first_family; simpl. by rewrite Hfund. }
  assert (Hrows : rows_of parsed_html ("ctl00_MainContent_" +:+ "fund" +:+ "Table")
                  = data_rows fund_table).
  { unfold rows_of. fold (family_tables parsed_html "fund"). by rewrite Hfund. }
  split.
  - unfold search_results. unfold mbind, result_bind.
    destruct (search_stocks parsed_html []) as [stocks|e]; simpl; [|done].
    by rewrite Hfund.
  - intros results Hres.
    destruct (search_results_Return _ _ Hres) as (stocks & funds & -> & Hs & Hf).
    rewrite Hfam, Hrows in Hf.
    exists stocks, funds. repeat split; auto.
    apply Forall_app. split.
    + eapply Forall2_Forall_r; [exact Hs|]. intros row c Hc.
      apply stock_item_Return in Hc as [Hc _]. by rewrite Hc.
    + eapply Forall2_Forall_r; [exact Hf|]. intros row c Hc.
      apply fund_item_Return in Hc as [Hc _]. by rewrite Hc.
Qed.

(** Every [type] that [search] writes is one of ['Stock'], ['fund'],
    ['etf']. *)
Lemma search_types parsed_html results c :
  search_results (E:=E) parsed_html = Return results ->
  c ∈ results ->
  c !! "type" = Some "Stock" \/ c !! "type" = Some "fund" \/ c !! "type" = Some "etf".
Proof.
  intros Hres Hc.
  destruct (search_results_Return _ _ Hres) as (stocks & funds & -> & Hs & Hf).
  apply elem_of_app in Hc as [Hc|Hc].
  - left. assert (H : Forall (fun c => c !! "type" = Some "Stock") stocks).
    { eapply Forall2_Forall_r; [exact Hs|]. intros row c' Hc'.
      by apply stock_item_Return in Hc' as [? _]. }
    rewrite Forall_forall in H. auto.
  - right. destruct (first_family parsed_html) as [ty|] eqn:Hty.
    + pose proof (funds_are_not_stock _ _ _ _ Hty Hf) as H.
      rewrite Forall_forall in H. destruct (H _ Hc) as [-> _].
      destruct (first_family_cases _ _ Hty) as [-> | ->]; auto.
    + subst. by apply elem_of_nil in Hc.
Qed.

(** The url of a site-relative link target is absolute once the site base
    stands in front of it. *)
Lemma fix_url_site_relative href :
  startswith href "/" = true ->
  exists parts,
    Urllib.urlsplit (fix_url href) = Some parts /\
    scheme parts = "http" /\ netloc parts = "www.morningstar.co.uk".
Proof.
  intros Hs. unfold fix_url. rewrite Hs.
  apply startswith_slash in Hs as [rest ->].
  unfold Urllib.urlsplit.
  change (Urllib.split_scheme (SITE_BASE +:+ String "/" rest))
    with ("http", "//www.morningstar.co.uk" +:+ String "/" rest).
  change (Urllib.splitnetloc ("www.morningstar.co.uk" +:+ String "/" rest))
    with ("www.morningstar.co.uk", String "/" rest).
  cbv beta iota.
  change ("//www.morningstar.co.uk" +:+ String "/" rest)
    with (String "/" (String "/" ("www.morningstar.co.uk" +:+ String "/" rest))).
  cbv beta iota.
  change (Urllib.splitnetloc ("www.morningstar.co.uk" +:+ String "/" rest))
    with ("www.morningstar.co.uk", String "/" rest).
  cbv beta iota.
  change (Urllib.contains "[" "www.morningstar.co.uk") with false.
  change (Urllib.contains "]" "www.morningstar.co.uk") with false.
  cbv beta iota delta [andb orb negb].
  destruct (Urllib.split_once "#" (String "/" rest)) as [[u f]|];
    [destruct (Urllib.split_once "?" u) as [[u' q]|]
    |destruct (Urllib.split_once "?" (String "/" rest)) as [[u' q]|]];
    eexists; split; reflexivity || (split; reflexivity).
Qed.



End SearchFacts.

(** ** [search] on the example pages *)

Example search_results_page_all :
  search_results (E:=Empty_set) Demo.page_all
  = Return [Demo.acme; Demo.apex; Demo.beta].
Proof. vm_compute. reflexivity. Qed.


(** The loop is left at the first instrument type that has a table, data
    rows or not: behind a fund table that holds only its header the ETF
    rows are not read. *)
Example search_results_page_empty_fund :
  search_results (E:=Empty_set) Demo.page_empty_fund = Return [].
Proof. vm_compute. reflexivity. Qed.

(** C2, on [page_all], whose fund and ETF tables have a data row each. *)
Lemma search_fund_before_etf_witness :
  exists fund_table etf_table results,
    family_tables Demo.page_all "fund" = [fund_table] /\
    data_rows fund_table <> [] /\
    family_tables Demo.page_all "etf" = [etf_table] /\
    data_rows etf_table <> [] /\
    search_results (E:=Empty_set) Demo.page_all = Return results /\
    Forall (fun c => c !! "type" <> Some "etf") results.
Proof.
  eexists _, _, _.
  assert (Hf : family_tables Demo.page_all "fund" =
               [Demo.table "ctl00_MainContent_fundTable"
                  [Demo.header; Demo.fund_row "/fund/1" "Beta Fund" "GB0000000001"]])
    by (vm_compute; reflexivity).
  assert (He : family_tables Demo.page_all "etf" =
               [Demo.table "ctl00_MainContent_etfTable"
                  [Demo.header; Demo.fund_row "/etf/1" "Gamma ETF" "IE0000000001"]])
    by (vm_compute; reflexivity).
  assert (Hfr : data_rows (Demo.table "ctl00_MainContent_fundTable"
                  [Demo.header; Demo.fund_row "/fund/1" "Beta Fund" "GB0000000001"]) <> [])
    by (vm_compute; discriminate).
  assert (Her : data_rows (Demo.table "ctl00_MainContent_etfTable"
                  [Demo.header; Demo.fund_row "/etf/1" "Gamma ETF" "IE0000000001"]) <> [])
    by (vm_compute; discriminate).
  split; [exact Hf|]. split; [exact Hfr|]. split; [exact He|]. split; [exact Her|].
  split; [exact search_results_page_all|].
  destruct (search_fund_before_etf (E:=Empty_set) _ _ _ _ _ Hf Hfr He Her) as [_ H].
  destruct (H _ search_results_page_all) as (? & ? & _ & _ & _ & Hall).
  exact Hall.
Defined.

(** C4 on [page_all]: the dictionary of the fund row carries the type
    ['fund'], which is not the ['Fund'] the docstring of [search]
    promises. *)
Theorem search_fund_type_lowercase :
  exists c,
    search_results (E:=Empty_set) Demo.page_all = Return [Demo.acme; Demo.apex; c] /\
    c !! "type" = Some "fund" /\
    c !! "type" <> Some "Fund".
Proof.
  exists Demo.beta. split; [exact search_results_page_all|].
  split; [reflexivity|discriminate].
Qed.



(** ** [get_url] and [get_data] *)

Section PipelineFacts.

Variable X : Collaborators.

Implicit Types (st : state X) (url : string) (verbose : bool).

Lemma fetches_app (tr tr' : list (event (Data X))) :
  fetches (tr ++ tr') = fetches tr ++ fetches tr'.
Proof. unfold fetches. induction tr as [|e tr IH]; simpl; [done|]. destruct (is_fetch e); simpl; by rewrite IH. Qed.

Lemma opened_world url verbose st : world X (opened X url verbose st) = world X st.
Proof. by destruct verbose. Qed.

Lemma opened_fetches url verbose st :
  fetches (trace X (opened X url verbose st)) = fetches (trace X st).
Proof.
  destruct verbose; [|done]. simpl. rewrite fetches_app. simpl. by rewrite app_nil_r.
Qed.

Lemma get_url_unfold url verbose st :
  get_url X url verbose st =
  match urlsplit X url with
  | None => (Raise ValueError, opened X url verbose st)
  | Some parts =>
      if endswith (netloc parts) SITE
      then open_page X url verbose (opened X url verbose st)
      else (Raise (DomainError url), opened X url verbose st)
  end.
Proof.
  unfold get_url, opened, when, mbind, M_bind, print, mret, M_ret, raise.
  destruct verbose; simpl;
    destruct (urlsplit X url) as [parts|]; try done;
    by destruct (endswith (netloc parts) SITE).
Qed.

(** A url whose network location does not end with [SITE] is refused
    after the [Opening] line and before anything is fetched. *)
Lemma get_url_off_site url verbose st parts :
  urlsplit X url = Some parts ->
  endswith (netloc parts) SITE = false ->
  get_url X url verbose st = (Raise (DomainError url), opened X url verbose st) /\
  world X (opened X url verbose st) = world X st /\
  fetches (trace X (opened X url verbose st)) = fetches (trace X st).
Proof.
  intros Hp He. rewrite get_url_unfold, Hp, He.
  split; [done|]. split; [apply opened_world|apply opened_fetches].
Qed.

(** What [open_page] does first is to call [SecurityPage.from_url(url)],
    and a [DomainError] is not among the ways it can end. *)
Lemma open_page_spec url verbose st :
  (exists tr, trace X (snd (open_page X url verbose st)) = trace X st ++ FromUrl url :: tr) /\
  (forall u, fst (open_page X url verbose st) <> Raise (DomainError u)).
Proof.
  unfold open_page, call, when, print, mbind, M_bind, mret, M_ret; simpl.
  destruct (from_url X url (world X st)) as [[err|page] w]; simpl.
  - split; [by exists []|done].
  - destruct (page_get_data X page w) as [[err|data] w']; simpl.
    + split; [|done]. exists [GetData]. by rewrite <- app_assoc.
    + destruct verbose; simpl.
      * split; [|done]. exists [GetData; Print (Result data)].
        by rewrite <- !app_assoc.
      * split; [|done]. exists [GetData]. by rewrite <- app_assoc.
Qed.

(** C1, in the form that holds.  When [urlsplit] refuses the url,
    [get_url] ends with its [ValueError], nothing fetched.  When
    [urlsplit] gives the url a network location that does not end with
    ['morningstar.co.uk'], [get_url] raises the [DomainError] for that
    url, with the world untouched and nothing fetched.  When the network
    location does end with it, [get_url] calls
    [SecurityPage.from_url(url)] and then [get_data()] on the page it
    got, in the world each call finds, and returns the data of
    [get_data()] as they are; what either call raises is raised, and a
    [DomainError] is not among the outcomes. *)
Theorem get_url_domain_check url verbose st :
  match urlsplit X url with
  | None =>
      get_url X url verbose st = (Raise ValueError, opened X url verbose st) /\
      world X (opened X url verbose st) = world X st /\
      fetches (trace X (opened X url verbose st)) = fetches (trace X st)
  | Some parts =>
      if endswith (netloc parts) SITE then
        match from_url X url (world X st) with
        | (inl err, w) =>
            get_url X url verbose st =
            (Raise (ExternalError err),
             {| world := w;
                trace := trace X (opened X url verbose st) ++ [FromUrl url] |})
        | (inr page, w) =>
            match page_get_data X page w with
            | (inl err, w') =>
                get_url X url verbose st =
                (Raise (ExternalError err),
                 {| world := w';
                    trace := trace X (opened X url verbose st)
                             ++ [FromUrl url; GetData] |})
            | (inr data, w') =>
                get_url X url verbose st =
                (Return data,
                 {| world := w';
                    trace := trace X (opened X url verbose st)
                             ++ [FromUrl url; GetData]
                             ++ (if verbose then [Print (Result data)] else []) |})
            end
        end
      else
        get_url X url verbose st
        = (Raise (DomainError url), opened X url verbose st) /\
        world X (opened X url verbose st) = world X st /\
        fetches (trace X (opened X url verbose st)) = fetches (trace X st)
  end.
Proof.
  rewrite get_url_unfold.
  destruct (urlsplit X url) as [parts|].
  - destruct (endswith (netloc parts) SITE).
    + unfold open_page, call, when, print, mbind, M_bind, mret, M_ret.
      rewrite opened_world.
      destruct (from_url X url (world X st)) as [[err|page] w]; simpl; [done|].
      destruct (page_get_data X page w) as [[err|data] w']; simpl.
      * by rewrite <- app_assoc.
      * destruct verbose; unfold log; simpl; by rewrite <- !app_assoc.
    + split; [done|]. split; [apply opened_world|apply opened_fetches].
  - split; [done|]. split; [apply opened_world|apply opened_fetches].
Qed.

(** C10: a url to which [urlsplit] gives no network location is refused
    with the [DomainError], nothing fetched: the empty string does not end
    with the site domain. *)
Theorem get_url_no_host url verbose st parts :
  urlsplit X url = Some parts ->
  netloc parts = "" ->
  get_url X url verbose st = (Raise (DomainError url), opened X url verbose st) /\
  world X (opened X url verbose st) = world X st /\
  fetches (trace X (opened X url verbose st)) = fetches (trace X st).
Proof.
  intros Hp Hn. apply get_url_off_site with parts; [done|]. by rewrite Hn.
Qed.

Lemma resolve_all_cons (item : candidate) (rest : list candidate) verbose st :
  resolve_all X (item :: rest) verbose st =
  match getitem X item "url" st with
  | (Raise e, st1) => (Raise e, st1)
  | (Return url, st1) =>
      match get_url X url verbose st1 with
      | (Raise e, st2) => (Raise e, st2)
      | (Return data, st2) =>
          match resolve_all X rest verbose st2 with
          | (Raise e, st3) => (Raise e, st3)
          | (Return datas, st3) => (Return (data :: datas), st3)
          end
      end
  end.
Proof.
  unfold resolve_all; simpl. unfold mbind, M_bind, mret, M_ret.
  destruct (getitem X item "url" st) as [[url|e] st1]; [|done].
  destruct (get_url X url verbose st1) as [[data|e] st2]; [|done].
  reflexivity.
Qed.

Lemma get_data_loop_mapM (results : list candidate) verbose
    (output : list (Data X)) st :
  get_data_loop X results verbose output st =
  (datas ← resolve_all X results verbose;
   mret (output ++ List.filter (truth X) datas)) st.
Proof.
  revert output st. induction results as [|item rest IH]; intros output st.
  - unfold resolve_all, mbind, M_bind, mret, M_ret; simpl. by rewrite app_nil_r.
  - change (get_data_loop X (item :: rest) verbose output st =
            match resolve_all X (item :: rest) verbose st with
            | (Return datas, st') =>
                (Return (output ++ List.filter (truth X) datas), st')
            | (Raise e, st') => (Raise e, st')
            end).
    rewrite resolve_all_cons.
    change (get_data_loop X (item :: rest) verbose output st)
      with (match getitem X item "url" st with
            | (Return url, st1) =>
                match get_url X url verbose st1 with
                | (Return data, st2) =>
                    get_data_loop X rest verbose
                      (if truth X data then output ++ [data] else output) st2
                | (Raise e, st2) => (Raise e, st2)
                end
            | (Raise e, st1) => (Raise e, st1)
            end).
    destruct (getitem X item "url" st) as [[url|e] st1]; [|done].
    destruct (get_url X url verbose st1) as [[data|e] st2]; [|done].
    rewrite IH.
    change ((datas ← resolve_all X rest verbose;
             mret ((if truth X data then output ++ [data] else output)
                   ++ List.filter (truth X) datas)) st2)
      with (match resolve_all X rest verbose st2 with
            | (Return datas, st') =>
                (Return ((if truth X data then output ++ [data] else output)
                         ++ List.filter (truth X) datas), st')
            | (Raise e, st') => (Raise e, st')
            end).
    destruct (resolve_all X rest verbose st2) as [[datas|e] st3]; [|done].
    simpl. destruct (truth X data); [|done]. by rewrite <- app_assoc.
Qed.

End PipelineFacts.

(** C3: [get_data] answers with the data of the dictionaries of [search]
    for which [get_url] gave data that counts as true, in the order of the
    dictionaries; data that counts as false is left out and the loop goes
    on.  In the example world the three dictionaries of [page_all] are
    resolved in turn, the second has no data, and the answer is the data
    of the first and the third. *)
Theorem get_data_skips_absent :
  (forall (X : Collaborators) (ref : string) (verbose : bool) (st : state X),
      get_data X ref verbose st =
      (results ← search X ref verbose;
       datas ← resolve_all X results verbose;
       mret (List.filter (truth X) datas)) st) /\
  (fst (search Demo.env "acme" false Demo.start)
   = Return [Demo.acme; Demo.apex; Demo.beta] /\
   fst (resolve_all Demo.env [Demo.acme; Demo.apex; Demo.beta] false Demo.start)
   = Return [Some "http://www.morningstar.co.uk/stock/1"; None;
             Some "http://www.morningstar.co.uk/fund/1"] /\
   fst (get_data Demo.env "acme" false Demo.start)
   = Return [Some "http://www.morningstar.co.uk/stock/1";
             Some "http://www.morningstar.co.uk/fund/1"]).
Proof.
  split.
  - intros X ref verbose st. unfold get_data, mbind, M_bind.
    destruct (search X ref verbose st) as [[results|e] st1]; [|done].
    apply get_data_loop_mapM.
  - repeat split; vm_compute; reflexivity.
Qed.

(** C1 fails as stated: [urlsplit] refuses ["http://[www.morningstar.co.uk/x"]
    for the bracket that is not closed, and [get_url] ends with that
    [ValueError]: the url is neither refused with a [DomainError] nor
    handed to [SecurityPage.from_url]. *)
Lemma get_url_unsplit_url :
  get_url Demo.env "http://[www.morningstar.co.uk/x" false Demo.start
  = (Raise ValueError, Demo.start) /\
  ~ (forall url : string,
        fst (get_url Demo.env url false Demo.start) = Raise (DomainError url) \/
        FromUrl url ∈ trace Demo.env (snd (get_url Demo.env url false Demo.start))).
Proof.
  assert (H : get_url Demo.env "http://[www.morningstar.co.uk/x" false Demo.start
              = (Raise ValueError, Demo.start)) by (vm_compute; reflexivity).
  split; [exact H|].
  intros Hall. destruct (Hall "http://[www.morningstar.co.uk/x") as [Hd|Hf].
  - rewrite H in Hd. discriminate Hd.
  - rewrite H in Hf. simpl in Hf. by apply elem_of_nil in Hf.
Qed.

(** C1 in the example world: ["http://evil.com/x"] is refused, the page of
    Acme Corp is opened and its data returned. *)
Lemma get_url_domain_check_witness :
  (get_url Demo.env "http://evil.com/x" false Demo.start
   = (Raise (DomainError "http://evil.com/x"), Demo.start)) /\
  (get_url Demo.env "http://www.morningstar.co.uk/stock/1" false Demo.start
   = (Return (Some "http://www.morningstar.co.uk/stock/1"),
      Build_state Demo.env tt
        [FromUrl "http://www.morningstar.co.uk/stock/1"; GetData])).
Proof.
  split.
  - exact (proj1 (get_url_domain_check Demo.env "http://evil.com/x" false
                    Demo.start)).
  - exact (get_url_domain_check Demo.env "http://www.morningstar.co.uk/stock/1"
             false Demo.start).
Defined.

(** C10 in the example world: a site-relative path and the empty string. *)
Lemma get_url_no_host_witness :
  (get_url Demo.env "/uk/funds/x" false Demo.start
   = (Raise (DomainError "/uk/funds/x"), Demo.start)) /\
  (get_url Demo.env "" false Demo.start = (Raise (DomainError ""), Demo.start)).
Proof.
  split.
  - refine (proj1 (get_url_no_host Demo.env "/uk/funds/x" false Demo.start
                     {| scheme := ""; netloc := ""; path := "/uk/funds/x";
                        query := ""; fragment := "" |} _ _)).
    + vm_compute; reflexivity.
    + reflexivity.
  - refine (proj1 (get_url_no_host Demo.env "" false Demo.start
                     {| scheme := ""; netloc := ""; path := "";
                        query := ""; fragment := "" |} _ _)).
    + vm_compute; reflexivity.
    + reflexivity.
Defined.

(** ** [dmy_2_date] *)

Section DateFacts.

Context {E : Type}.

Lemma in_chr p s t r :
  In (t, r) (chr p s) <-> exists a, s = String a r /\ t = String a EmptyString /\ p a = true.
Proof.
  unfold chr. destruct s as [|a s']; simpl.
  - split; [done|]. by intros (a & ? & _).
  - destruct (p a) eqn:Hp; simpl.
    + split.
      * intros [[= <- <-]|[]]. eauto.
      * intros (b & [= <- <-] & -> & _). by left.
    + split; [done|]. intros (b & [= <- <-] & _ & Hb). congruence.
Qed.

Lemma in_cat r1 r2 s t r :
  In (t, r) (cat r1 r2 s) <->
  exists t1 t2 s1, In (t1, s1) (r1 s) /\ In (t2, r) (r2 s1) /\ t = t1 +:+ t2.
Proof.
  unfold cat. rewrite in_flat_map. split.
  - intros ([t1 s1] & H1 & H2). apply in_map_iff in H2 as ([t2 s2] & [= <- <-] & H2).
    eauto 10.
  - intros (t1 & t2 & s1 & H1 & H2 & ->). exists (t1, s1). split; [done|].
    apply in_map_iff. by exists (t2, r).
Qed.

Lemma in_alt r1 r2 s x : In x (alt r1 r2 s) <-> In x (r1 s) \/ In x (r2 s).
Proof. unfold alt. apply in_app_iff. Qed.

Lemma lit_eq c a : lit c a = true -> a = c.
Proof. unfold lit. intros H. by apply Ascii.eqb_eq in H. Qed.

Lemma range_digit lo hi a : (hi <= 9)%nat -> range lo hi a = true -> digit a = true.
Proof.
  unfold range, digit, Urllib.is_decimal, Urllib.between. intros Hhi H.
  apply andb_true_iff in H as [H1 H2].
  apply Nat.leb_le in H1, H2. apply andb_true_iff. split; apply Nat.leb_le; lia.
Qed.

Ltac invert_pattern :=
  repeat match goal with
  | H : In _ (alt _ _ _) |- _ => apply in_alt in H as [H|H]
  | H : In _ (cat _ _ _) |- _ => apply in_cat in H as (? & ? & ? & ? & H & ->)
  | H : In _ (chr _ _) |- _ => apply in_chr in H as (? & -> & -> & H)
  end.

Ltac digits :=
  repeat match goal with
  | H : lit _ _ = true |- _ => apply lit_eq in H; subst
  | H : range _ _ _ = true |- _ => apply range_digit in H; [|lia]
  | H : digit _ = true |- _ => rewrite H; clear H
  end.

Lemma re_d_sound s t r :
  In (t, r) (re_d s) -> s = t +:+ r /\ day_field t = true.
Proof.
  unfold re_d. intros H. invert_pattern; digits; simpl; digits; by split.
Qed.

Lemma re_m_sound s t r :
  In (t, r) (re_m s) -> s = t +:+ r /\ month_field t = true.
Proof.
  unfold re_m. intros H. invert_pattern; digits; simpl; digits; by split.
Qed.

Lemma re_Y_sound s t r :
  In (t, r) (re_Y s) -> s = t +:+ r /\ year_field t = true.
Proof.
  unfold re_Y. intros H. invert_pattern; digits; simpl; digits; by split.
Qed.

Lemma re_slash_sound s t r : In (t, r) (re_slash s) -> s = String "/" r.
Proof.
  unfold re_slash. intros H. invert_pattern. by digits.
Qed.

Lemma string_app_nil_r (a : string) : a +:+ "" = a.
Proof.
  induction a as [|x a IH]; [done|].
  change (String x (a +:+ "") = String x a). by rewrite IH.
Qed.

Lemma regex_match_sound text d m Y rest :
  regex_match text = Some (d, m, Y, rest) ->
  text = d +:+ "/" +:+ m +:+ "/" +:+ Y +:+ rest /\
  day_field d = true /\ month_field m = true /\ year_field Y = true.
Proof.
  unfold regex_match. intros H. apply head_Some_elem_of, list_elem_of_In in H.
  apply in_flat_map in H as ([d' s1] & Hd & H).
  apply in_flat_map in H as ([x1 s2] & Hs1 & H).
  apply in_flat_map in H as ([m' s3] & Hm & H).
  apply in_flat_map in H as ([x2 s4] & Hs2 & H).
  apply in_map_iff in H as ([Y' s5] & [= -> -> -> ->] & HY).
  apply re_d_sound in Hd as [-> Hd]. apply re_slash_sound in Hs1 as ->.
  apply re_m_sound in Hm as [-> Hm]. apply re_slash_sound in Hs2 as ->.
  apply re_Y_sound in HY as [-> HY].
  done.
Qed.

Lemma digit_cases a :
  digit a = true ->
  In a ["0"; "1"; "2"; "3"; "4"; "5"; "6"; "7"; "8"; "9"]%char.
Proof.
  destruct a as [[] [] [] [] [] [] [] []]; vm_compute; intros H;
    try discriminate H; tauto.
Qed.

Lemma flat_map_then_slash {T} (p : pattern) (K : string -> string -> list T) s :
  flat_map (fun '(t, s1) => flat_map (fun '(_, s2) => K t s2) (re_slash s1)) (p s)
  = flat_map (fun '(t, s2) => K t s2) (then_slash p s).
Proof.
  unfold then_slash. induction (p s) as [|[t s1] l IH]; simpl; [done|].
  rewrite flat_map_app, IH. f_equal.
  induction (re_slash s1) as [|[x s2] l' IH']; simpl; [done|]. by rewrite IH'.
Qed.

Ltac digit_split H :=
  apply digit_cases in H; simpl in H;
  repeat (destruct H as [<-|H]); [..|destruct H].

Lemma re_d_slash d r :
  day_field d = true ->
  (1 <=? int d)%Z && (int d <=? 31)%Z = true ->
  then_slash re_d (d +:+ String "/" r) = [(d, r)].
Proof.
  destruct d as [|a [|b [|]]]; try discriminate; simpl.
  - intros Ha. digit_split Ha; intros Hv; try discriminate Hv; vm_compute; reflexivity.
  - intros H. apply andb_true_iff in H as [Ha Hb].
    apply orb_true_iff in Ha as [Ha|Ha].
    + digit_split Ha; digit_split Hb; intros Hv; try discriminate Hv;
        vm_compute; reflexivity.
    + apply Ascii.eqb_eq in Ha as ->.
      digit_split Hb; intros Hv; try discriminate Hv; vm_compute; reflexivity.
Qed.

Lemma re_m_slash m r :
  month_field m = true ->
  (1 <=? int m)%Z && (int m <=? 12)%Z = true ->
  then_slash re_m (m +:+ String "/" r) = [(m, r)].
Proof.
  destruct m as [|a [|b [|]]]; try discriminate; simpl.
  - intros Ha. digit_split Ha; intros Hv; try discriminate Hv; vm_compute; reflexivity.
  - intros H. apply andb_true_iff in H as [Ha Hb].
    digit_split Ha; digit_split Hb; intros Hv; try discriminate Hv;
      vm_compute; reflexivity.
Qed.

Lemma re_Y_complete y r :
  year_field y = true -> re_Y (y +:+ r) = [(y, r)].
Proof.
  destruct y as [|a [|b [|c [|d [|]]]]]; try discriminate; simpl.
  intros H. apply andb_true_iff in H as [H Hd].
  apply andb_true_iff in H as [H Hc]. apply andb_true_iff in H as [Ha Hb].
  change (String a (String b (String c (String d "")))  +:+ r)
    with (String a (String b (String c (String d r)))).
  unfold re_Y, cat, chr. simpl.
  rewrite Ha; simpl. rewrite Hb; simpl. rewrite Hc; simpl. rewrite Hd; simpl.
  reflexivity.
Qed.

Lemma valid_date_bounds y m d :
  valid_date y m d = true ->
  (1 <=? d)%Z && (d <=? 31)%Z = true /\ (1 <=? m)%Z && (m <=? 12)%Z = true.
Proof.
  unfold valid_date, days_in_month. intros H.
  repeat (apply andb_true_iff in H as [H ?]).
  split; apply andb_true_iff; split; try done.
  destruct (m =? 2)%Z; [destruct (is_leap y)|destruct (_ || _)]; lia.
Qed.

Lemma regex_match_complete d m y :
  day_field d = true -> month_field m = true -> year_field y = true ->
  (1 <=? int d)%Z && (int d <=? 31)%Z = true ->
  (1 <=? int m)%Z && (int m <=? 12)%Z = true ->
  regex_match (d +:+ "/" +:+ m +:+ "/" +:+ y) = Some (d, m, y, "").
Proof.
  intros Hd Hm Hy Hdv Hmv. unfold regex_match.
  rewrite (flat_map_then_slash re_d).
  change (d +:+ "/" +:+ m +:+ "/" +:+ y)
    with (d +:+ String "/" (m +:+ String "/" y)).
  rewrite (re_d_slash d _ Hd Hdv). simpl. rewrite app_nil_r.
  rewrite (flat_map_then_slash re_m).
  rewrite (re_m_slash m _ Hm Hmv). simpl. rewrite app_nil_r.
  rewrite <- (string_app_nil_r y) at 1. by rewrite (re_Y_complete y "" Hy).
Qed.

Lemma strptime_dmY_names text dt :
  strptime_dmY (E:=E) text = Return dt <-> names_date text dt.
Proof.
  unfold strptime_dmY, names_date. split.
  - destruct (regex_match text) as [[[[d m] y] rest]|] eqn:Hm; [|done].
    apply regex_match_sound in Hm as (-> & Hd & Hmo & Hy).
    destruct (String.eqb_spec rest "") as [->|]; simpl; [|done].
    destruct (valid_date (int y) (int m) (int d)) eqn:Hv; [|done].
    intros [= <-]. exists d, m, y. repeat split; try done.
    by rewrite (string_app_nil_r y).
  - intros (d & m & y & -> & Hd & Hm & Hy & Hv & ->).
    destruct (valid_date_bounds _ _ _ Hv) as [Hdv Hmv].
    rewrite (regex_match_complete d m y Hd Hm Hy Hdv Hmv). simpl. by rewrite Hv.
Qed.

Lemma strptime_dmY_total text :
  (exists dt, strptime_dmY (E:=E) text = Return dt) \/
  strptime_dmY (E:=E) text = Raise ValueError.
Proof.
  unfold strptime_dmY.
  destruct (regex_match text) as [[[[d m] y] rest]|]; [|by right].
  destruct (negb _); [by right|].
  destruct (valid_date _ _ _); [left; eauto|by right].
Qed.


End DateFacts.

Example dmy_2_date_documented :
  dmy_2_date (E:=Empty_set) "05/03/2022"
  = Return {| year := 2022; month := 3; day := 5 |} /\
  dmy_2_date (E:=Empty_set) "25/12/2023"
  = Return {| year := 2023; month := 12; day := 25 |} /\
  dmy_2_date (E:=Empty_set) "2022-03-05" = Raise ValueError /\
  dmy_2_date (E:=Empty_set) "31/02/2023" = Raise ValueError.
Proof. repeat split; vm_compute; reflexivity. Qed.


(** * Further properties *)

(** ** Rows that [search] can and cannot read *)

Section RowFacts.

Context {E : Type}.

Implicit Types (row parsed_html : PageElement) (c : candidate).

Lemma stock_item_cases row :
  match row_href row with
  | None => stock_item (E:=E) row = Raise AttributeError
  | Some href =>
      match find_all_class row "td" "searchTicker",
            find_all_class row "td" "searchCurrency" with
      | ticker :: _, currency :: _ =>
          exists c, stock_item (E:=E) row = Return c
      | _, _ => stock_item (E:=E) row = Raise IndexError
      end
  end.
Proof.
  unfold stock_item, row_href, mbind, result_bind, option_bind, attr_of, index; simpl.
  destruct (find row "td") as [td|]; simpl; [|done].
  destruct (find td "a") as [a|]; simpl; [|done].
  destruct (get a "href") as [href|]; simpl; [|done].
  destruct (find_all_class row "td" "searchTicker") as [|t ts]; simpl; [done|].
  destruct (find_all_class row "td" "searchCurrency") as [|cu cs]; simpl; [done|].
  eauto.
Qed.

Lemma fund_item_cases instrument_type row :
  match find_all row "td" with
  | [] => fund_item (E:=E) instrument_type row = Raise IndexError
  | d0 :: data =>
      match row_href row with
      | None => fund_item (E:=E) instrument_type row = Raise AttributeError
      | Some href =>
          match data with
          | [] => fund_item (E:=E) instrument_type row = Raise IndexError
          | d1 :: _ => exists c, fund_item (E:=E) instrument_type row = Return c
          end
      end
  end.
Proof.
  unfold fund_item, row_href, find, mbind, result_bind, option_bind, attr_of, index; simpl.
  destruct (find_all row "td") as [|d0 data]; simpl; [done|].
  destruct (head (find_all d0 "a")) as [a|]; simpl; [|done].
  destruct (get a "href") as [href|]; simpl; [|done].
  destruct data as [|d1 data]; simpl; [done|]. eauto.
Qed.

(** X1: [search] makes a dictionary of a stock row exactly when the row has
    a link target in its first cell, a ticker cell and a currency cell.
    Without the link target the row raises [AttributeError]; with it but
    without one of the two marked cells it raises [IndexError]. *)
Theorem stock_item_ok_iff row :
  (stock_row_ok row = true <-> exists c, stock_item (E:=E) row = Return c) /\
  (row_href row = None -> stock_item (E:=E) row = Raise AttributeError) /\
  (row_href row <> None -> stock_row_ok row = false ->
   stock_item (E:=E) row = Raise IndexError).
Proof.
  pose proof (stock_item_cases row) as H. unfold stock_row_ok.
  destruct (row_href row) as [href|].
  - destruct (find_all_class row "td" "searchTicker") as [|t ts];
      [|destruct (find_all_class row "td" "searchCurrency") as [|cu cs]]; simpl.
    + rewrite H. split; [|done]. split; [done|]. by intros [c ?].
    + rewrite H. split; [|done]. split; [done|]. by intros [c ?].
    + split; [done|]. split; [done|]. by intros _ ?.
  - rewrite H. split; [|done]. split; [done|]. by intros [c ?].
Qed.

(** X2: [search] makes a dictionary of a fund or ETF row exactly when the
    row has a link target in its first cell and a second cell.  A row
    without cells raises [IndexError], a row whose first cell has no link
    target raises [AttributeError], and a row with a link target but a
    single cell raises [IndexError]. *)
Theorem fund_item_ok_iff instrument_type row :
  (fund_row_ok row = true <->
   exists c, fund_item (E:=E) instrument_type row = Return c) /\
  (find_all row "td" = [] ->
   fund_item (E:=E) instrument_type row = Raise IndexError) /\
  (find_all row "td" <> [] -> row_href row = None ->
   fund_item (E:=E) instrument_type row = Raise AttributeError) /\
  (row_href row <> None -> length (find_all row "td") < 2 ->
   fund_item (E:=E) instrument_type row = Raise IndexError).
Proof.
  pose proof (fund_item_cases instrument_type row) as H. unfold fund_row_ok.
  assert (Hnone : find_all row "td" = [] -> row_href row = None).
  { unfold row_href, find. by intros ->. }
  destruct (find_all row "td") as [|d0 data].
  - rewrite Hnone by done. rewrite H. repeat split; try done. by intros [c ?].
  - destruct (row_href row) as [href|].
    + destruct data as [|d1 data]; simpl.
      * rewrite H. repeat split; try done. by intros [c ?].
      * repeat split; try done. intros _ ?. lia.
    + rewrite H. repeat split; try done. by intros [c ?].
Qed.

End RowFacts.

Section SearchRowFacts.

Context {E : Type}.

Implicit Types (row parsed_html : PageElement) (c : candidate).

Lemma mapM_cons (item : PageElement -> result E candidate) row rows :
  mapM item (row :: rows) =
  match item row with
  | Raise e => Raise e
  | Return c =>
      match mapM item rows with
      | Raise e => Raise e
      | Return cs => Return (c :: cs)
      end
  end.
Proof.
  simpl. unfold mbind, result_bind; simpl.
  destruct (item row); simpl; [|done]. by destruct (mapM item rows).
Qed.

Lemma mapM_Return_iff (item : PageElement -> result E candidate) rows :
  (exists cs, mapM item rows = Return cs) <->
  Forall (fun row => exists c, item row = Return c) rows.
Proof.
  induction rows as [|row rows IH].
  - split; [constructor|]. by exists [].
  - rewrite mapM_cons. split.
    + intros [cs H]. destruct (item row) as [c|e] eqn:Hc; [|done].
      destruct (mapM item rows) as [cs'|e] eqn:Hm; [|done].
      constructor; [eauto|]. apply IH. eauto.
    + intros H. apply Forall_cons in H as [[c Hc] H]. apply IH in H as [cs Hcs].
      rewrite Hc, Hcs. eauto.
Qed.

Lemma mapM_Raise (item : PageElement -> result E candidate) rows e :
  mapM item rows = Raise e -> exists row, row ∈ rows /\ item row = Raise e.
Proof.
  induction rows as [|row rows IH]; [done|].
  rewrite mapM_cons.
  destruct (item row) as [c|e'] eqn:Hc.
  - destruct (mapM item rows) as [cs'|e'] eqn:Hm; [done|].
    intros [= ->]. destruct IH as (r & Hr & He); [done|].
    exists r. split; [by apply list_elem_of_further|done].
  - intros [= ->]. exists row. split; [apply list_elem_of_here|done].
Qed.

Lemma stock_item_ok row :
  stock_row_ok row = true <-> exists c, stock_item (E:=E) row = Return c.
Proof.
  pose proof (stock_item_cases (E:=E) row) as H. unfold stock_row_ok.
  destruct (row_href row) as [href|].
  - destruct (find_all_class row "td" "searchTicker") as [|t ts];
      [|destruct (find_all_class row "td" "searchCurrency") as [|cu cs]]; simpl.
    + rewrite H. split; [done|]. by intros [c ?].
    + rewrite H. split; [done|]. by intros [c ?].
    + done.
  - rewrite H. split; [done|]. by intros [c ?].
Qed.

Lemma fund_item_ok instrument_type row :
  fund_row_ok row = true <->
  exists c, fund_item (E:=E) instrument_type row = Return c.
Proof.
  pose proof (fund_item_cases (E:=E) instrument_type row) as H. unfold fund_row_ok.
  assert (Hnone : find_all row "td" = [] -> row_href row = None).
  { unfold row_href, find. by intros ->. }
  destruct (find_all row "td") as [|d0 data].
  - rewrite Hnone by done. rewrite H. split; [done|]. by intros [c ?].
  - destruct (row_href row) as [href|].
    + destruct data as [|d1 data]; simpl; [|done].
      rewrite H. split; [done|]. by intros [c ?].
    + rewrite H. split; [done|]. by intros [c ?].
Qed.

Lemma stock_item_Raise row e :
  stock_item (E:=E) row = Raise e -> e = AttributeError \/ e = IndexError.
Proof.
  pose proof (stock_item_cases (E:=E) row) as H.
  destruct (row_href row); [|rewrite H; intros [= <-]; by left].
  destruct (find_all_class row "td" "searchTicker");
    [rewrite H; intros [= <-]; by right|].
  destruct (find_all_class row "td" "searchCurrency");
    [rewrite H; intros [= <-]; by right|].
  destruct H as [c ->]. done.
Qed.

Lemma fund_item_Raise instrument_type row e :
  fund_item (E:=E) instrument_type row = Raise e ->
  e = AttributeError \/ e = IndexError.
Proof.
  pose proof (fund_item_cases (E:=E) instrument_type row) as H.
  destruct (find_all row "td") as [|d0 data];
    [rewrite H; intros [= <-]; by right|].
  destruct (row_href row); [|rewrite H; intros [= <-]; by left].
  destruct data; [rewrite H; intros [= <-]; by right|].
  destruct H as [c ->]. done.
Qed.

(** [search_results] with the family rows named. *)
Lemma search_results_rows parsed_html :
  search_results (E:=E) parsed_html =
  match mapM stock_item (rows_of parsed_html "ctl00_MainContent_stockTable") with
  | Raise e => Raise e
  | Return stocks =>
      match first_family parsed_html with
      | None => Return (stocks ++ [])
      | Some ty =>
          match mapM (fund_item ty) (family_rows parsed_html) with
          | Raise e => Raise e
          | Return funds => Return (stocks ++ funds)
          end
      end
  end.
Proof.
  rewrite search_results_eq. unfold family_rows, mbind, result_bind; simpl.
  destruct (mapM stock_item _) as [stocks|e]; simpl; [|done].
  destruct (first_family parsed_html) as [ty|]; simpl; [|done].
  by destruct (mapM (fund_item ty) _).
Qed.

(** X3: [search] is all or nothing.  It returns exactly when every data row
    of the stock table and every data row of the family table it reads
    can be read, and then it returns one dictionary per row; a row that
    cannot be read is never left out. *)
Theorem search_all_or_nothing parsed_html :
  ((exists results, search_results (E:=E) parsed_html = Return results) <->
   Forall (fun row => stock_row_ok row = true)
          (rows_of parsed_html "ctl00_MainContent_stockTable") /\
   Forall (fun row => fund_row_ok row = true) (family_rows parsed_html)) /\
  (forall results,
      search_results (E:=E) parsed_html = Return results ->
      length results = length (searched_rows parsed_html)).
Proof.
  split.
  - rewrite search_results_rows. split.
    + intros [results H].
      destruct (mapM stock_item _) as [stocks|e] eqn:Hs; [|done].
      assert (Hst : Forall (fun row => stock_row_ok row = true)
                      (rows_of parsed_html "ctl00_MainContent_stockTable")).
      { eapply Forall_impl; [apply mapM_Return_iff; eauto|].
        intros row Hrow. by apply stock_item_ok. }
      split; [done|]. unfold family_rows in *.
      destruct (first_family parsed_html) as [ty|]; [|constructor].
      destruct (mapM (fund_item ty) _) as [funds|e] eqn:Hf; [|done].
      eapply Forall_impl; [apply mapM_Return_iff; eauto|].
      intros row Hrow. by apply (fund_item_ok ty).
    + intros [Hs Hf].
      assert (Hs' : exists cs, mapM (stock_item (E:=E))
                       (rows_of parsed_html "ctl00_MainContent_stockTable") = Return cs).
      { apply mapM_Return_iff. eapply Forall_impl; [exact Hs|].
        intros row Hrow. by apply stock_item_ok. }
      destruct Hs' as [stocks ->].
      destruct (first_family parsed_html) as [ty|] eqn:Hty; [|eauto].
      assert (Hf' : exists cs, mapM (fund_item (E:=E) ty)
                       (family_rows parsed_html) = Return cs).
      { apply mapM_Return_iff. eapply Forall_impl; [exact Hf|].
        intros row Hrow. by apply (fund_item_ok ty). }
      destruct Hf' as [funds ->]. eauto.
  - intros results H.
    destruct (search_results_Return _ _ H) as (stocks & funds & -> & Hs & Hf).
    unfold searched_rows. rewrite !length_app.
    rewrite <- (Forall2_length _ _ _ Hs).
    destruct (first_family parsed_html) as [ty|].
    + by rewrite <- (Forall2_length _ _ _ Hf).
    + by subst.
Qed.

Lemma search_results_Raise_row parsed_html e :
  search_results (E:=E) parsed_html = Raise e ->
  (e = AttributeError \/ e = IndexError) /\
  exists row,
    row ∈ searched_rows parsed_html /\
    (stock_item (E:=E) row = Raise e \/
     exists ty, first_family parsed_html = Some ty /\
                fund_item (E:=E) ty row = Raise e).
Proof.
  rewrite search_results_rows. unfold searched_rows.
  fold (family_rows parsed_html).
  destruct (mapM stock_item _) as [stocks|e'] eqn:Hs.
  - unfold family_rows.
    destruct (first_family parsed_html) as [ty|] eqn:Hty; [|done].
    destruct (mapM (fund_item ty) _) as [funds|e'] eqn:Hf; [done|].
    intros [= ->]. apply mapM_Raise in Hf as (row & Hrow & He).
    split; [by eapply fund_item_Raise|].
    exists row. split; [apply elem_of_app; by right|]. right. eauto.
  - intros [= ->]. apply mapM_Raise in Hs as (row & Hrow & He).
    split; [by eapply stock_item_Raise|].
    exists row. split; [apply elem_of_app; by left|]. by left.
Qed.

Lemma search_results_Raise parsed_html e :
  search_results (E:=E) parsed_html = Raise e ->
  e = AttributeError \/ e = IndexError.
Proof. intros H. by apply search_results_Raise_row in H as [? _]. Qed.

(** X4: when [search] fails on a page it has got, the exception is that of
    a data row it could not read, [AttributeError] or [IndexError]. *)
Theorem search_error_kinds parsed_html e :
  search_results (E:=E) parsed_html = Raise e ->
  (e = AttributeError \/ e = IndexError) /\
  exists row,
    row ∈ searched_rows parsed_html /\
    (stock_item (E:=E) row = Raise e \/
     exists ty, first_family parsed_html = Some ty /\
                fund_item (E:=E) ty row = Raise e).
Proof. apply search_results_Raise_row. Qed.

End SearchRowFacts.

Section KeyFacts.

Context {E : Type}.

Implicit Types (row parsed_html : PageElement) (c : candidate).

Lemma stock_item_dom row c :
  stock_item (E:=E) row = Return c -> dom c = stock_keys.
Proof.
  unfold stock_item, mbind, result_bind, attr_of, index; simpl.
  destruct (find row "td") as [td|]; simpl; [|done].
  destruct (find td "a") as [a|]; simpl; [|done].
  destruct (get a "href") as [href|]; simpl; [|done].
  destruct (_ !! 0); simpl; [|done].
  destruct (_ !! 0); simpl; [|done].
  intros [= <-]. unfold stock_keys. rewrite !dom_insert_L, dom_empty_L. set_solver.
Qed.

Lemma fund_item_dom instrument_type row c :
  fund_item (E:=E) instrument_type row = Return c -> dom c = fund_keys.
Proof.
  unfold fund_item, mbind, result_bind, attr_of, index; simpl.
  destruct (_ !! 0) as [d0|]; simpl; [|done].
  destruct (find d0 "a") as [a|]; simpl; [|done].
  destruct (get a "href") as [href|]; simpl; [|done].
  destruct (_ !! 1); simpl; [|done].
  intros [= <-]. unfold fund_keys. rewrite !dom_insert_L, dom_empty_L. set_solver.
Qed.

(** X5: a dictionary that [search] returns has exactly the keys [name],
    [url], [type], [ticker], [currency] when it is a stock, and exactly
    the keys [name], [url], [type], [ISIN] when it is not. *)
Theorem search_keys parsed_html results c :
  search_results (E:=E) parsed_html = Return results ->
  c ∈ results ->
  (is_stock c = true /\ dom c = stock_keys) \/
  (is_stock c = false /\ dom c = fund_keys).
Proof.
  intros Hres Hc.
  destruct (search_results_Return _ _ Hres) as (stocks & funds & -> & Hs & Hf).
  apply elem_of_app in Hc as [Hc|Hc].
  - left. apply list_elem_of_lookup in Hc as [i Hi].
    destruct (Forall2_lookup_r _ _ _ _ _ Hs Hi) as (row & _ & Hitem).
    split; [|by eapply stock_item_dom].
    apply stock_item_Return in Hitem as [Hty _]. unfold is_stock. by rewrite Hty.
  - right. destruct (first_family parsed_html) as [ty|] eqn:Hty;
      [|subst; by apply elem_of_nil in Hc].
    pose proof (funds_are_not_stock _ _ _ _ Hty Hf) as Hns.
    rewrite Forall_forall in Hns. destruct (Hns _ Hc) as [_ Hn].
    split; [done|].
    apply list_elem_of_lookup in Hc as [i Hi].
    destruct (Forall2_lookup_r _ _ _ _ _ Hf Hi) as (row & _ & Hitem).
    by eapply fund_item_dom.
Qed.

End KeyFacts.

(** ** What [verbose] changes, and what is fetched *)

Section VerboseFacts.

Variable X : Collaborators.

Implicit Types (st : state X) (url : string) (verbose : bool).

Lemma fetches_snoc (tr : list (event (Data X))) e :
  fetches (tr ++ [e]) = fetches tr ++ (if is_fetch e then [e] else []).
Proof.
  rewrite fetches_app. unfold fetches. simpl. by destruct (is_fetch e).
Qed.

Lemma agrees_bind {A B} (m1 m2 : M X A) (k1 k2 : A -> M X B) :
  agrees X m1 m2 -> (forall a, agrees X (k1 a) (k2 a)) ->
  agrees X (m1 ≫= k1) (m2 ≫= k2).
Proof.
  intros Hm Hk st1 st2 Hst. unfold mbind, M_bind.
  destruct (Hm st1 st2 Hst) as [Hv Hs].
  destruct (m1 st1) as [[a1|e1] st1'], (m2 st2) as [[a2|e2] st2']; simpl in *;
    try discriminate Hv.
  - injection Hv as ->. by apply Hk.
  - injection Hv as ->. by split.
Qed.

Lemma agrees_ret {A} (a : A) : agrees X (mret a) (mret a).
Proof. intros st1 st2 Hst. by split. Qed.

Lemma agrees_lift {A} (r : result (ExtError X) A) : agrees X (lift X r) (lift X r).
Proof. intros st1 st2 Hst. by split. Qed.

Lemma agrees_raise {A} e : agrees X (raise X (A:=A) e) (raise X e).
Proof. intros st1 st2 Hst. by split. Qed.

Lemma agrees_call {A} e (f : World X -> (ExtError X + A) * World X) :
  agrees X (call X e f) (call X e f).
Proof.
  intros st1 st2 [Hw Hf]. unfold call. rewrite Hw.
  destruct (f (world X st2)) as [[err|a] w]; simpl;
    (split; [done|]); split; simpl; try done;
    by rewrite !fetches_snoc, Hf.
Qed.

Lemma prints_only_print o : prints_only X (print X o).
Proof.
  intros st. split; [done|]. split; [done|]. simpl.
  rewrite fetches_snoc. simpl. by rewrite app_nil_r.
Qed.

Lemma prints_only_ret : prints_only X (mret tt).
Proof. intros st. by split. Qed.

Lemma prints_only_seq (m1 m2 : M X unit) :
  prints_only X m1 -> prints_only X m2 -> prints_only X (m1 ;; m2).
Proof.
  intros H1 H2 st. unfold mbind, M_bind.
  destruct (H1 st) as [Hv [Hw Hf]]. destruct (m1 st) as [[[]|e] st1]; simpl in *; [|done].
  destruct (H2 st1) as [Hv2 [Hw2 Hf2]]. split; [done|].
  split; congruence.
Qed.

Lemma prints_only_when b m : prints_only X m -> prints_only X (when X b m).
Proof. destruct b; [done|]. intros _. apply prints_only_ret. Qed.

Lemma prints_only_items results : prints_only X (print_items X results).
Proof.
  induction results as [|item rest IH]; simpl; [apply prints_only_ret|].
  apply prints_only_seq; [apply prints_only_print|done].
Qed.

Lemma agrees_prints (m1 m2 : M X unit) :
  prints_only X m1 -> prints_only X m2 -> agrees X m1 m2.
Proof.
  intros H1 H2 st1 st2 [Hw Hf].
  destruct (H1 st1) as [Hv1 [Hw1 Hf1]], (H2 st2) as [Hv2 [Hw2 Hf2]].
  split; [congruence|]. split; congruence.
Qed.

Lemma search_agrees ref v1 v2 : agrees X (search X ref v1) (search X ref v2).
Proof.
  unfold search.
  apply agrees_bind.
  { apply agrees_prints; apply prints_only_when, prints_only_print. }
  intros _. apply agrees_bind; [apply agrees_call|]. intros parsed_html.
  apply agrees_bind; [apply agrees_lift|]. intros results.
  apply agrees_bind; [|intros _; apply agrees_ret].
  apply agrees_prints; apply prints_only_when; destruct results;
    try apply prints_only_print;
    (apply prints_only_seq; [apply prints_only_print|apply prints_only_items]).
Qed.

Lemma open_page_agrees url v1 v2 : agrees X (open_page X url v1) (open_page X url v2).
Proof.
  unfold open_page.
  apply agrees_bind; [apply agrees_call|]. intros page.
  apply agrees_bind; [apply agrees_call|]. intros data.
  apply agrees_bind; [|intros _; apply agrees_ret].
  apply agrees_prints; apply prints_only_when, prints_only_print.
Qed.

Lemma get_url_agrees url v1 v2 : agrees X (get_url X url v1) (get_url X url v2).
Proof.
  unfold get_url.
  apply agrees_bind.
  { apply agrees_prints; apply prints_only_when, prints_only_print. }
  intros _. destruct (urlsplit X url) as [parts|]; [|apply agrees_raise].
  destruct (negb _); [apply agrees_raise|apply open_page_agrees].
Qed.

Lemma getitem_agrees item key : agrees X (getitem X item key) (getitem X item key).
Proof.
  unfold getitem. destruct (item !! key); [apply agrees_ret|apply agrees_raise].
Qed.

Lemma get_data_loop_agrees results v1 v2 output :
  agrees X (get_data_loop X results v1 output) (get_data_loop X results v2 output).
Proof.
  revert output. induction results as [|item rest IH]; intros output; simpl.
  - apply agrees_ret.
  - apply agrees_bind; [apply getitem_agrees|]. intros url.
    apply agrees_bind; [apply get_url_agrees|]. intros data. apply IH.
Qed.

Lemma get_data_agrees ref v1 v2 : agrees X (get_data X ref v1) (get_data X ref v2).
Proof.
  unfold get_data. apply agrees_bind; [apply search_agrees|].
  intros results. apply get_data_loop_agrees.
Qed.

Lemma same_outside_refl st : same_outside st st.
Proof. by split. Qed.

(** X6: a run with [verbose] that returns is a run without it plus the
    prints.  When [search], [get_url] or [get_data] returns a value with
    [verbose=True], it returns the same value with [verbose=False],
    leaves the same world and has fetched the same pages in the same
    order. *)
Theorem verbose_only_prints ref url st :
  (forall results st',
      search X ref true st = (Return results, st') ->
      agree (search X ref true st) (search X ref false st)) /\
  (forall data st',
      get_url X url true st = (Return data, st') ->
      agree (get_url X url true st) (get_url X url false st)) /\
  (forall out st',
      get_data X ref true st = (Return out, st') ->
      agree (get_data X ref true st) (get_data X ref false st)).
Proof.
  split; [|split].
  - intros _ _ _. apply search_agrees, same_outside_refl.
  - intros _ _ _. apply get_url_agrees, same_outside_refl.
  - intros _ _ _. apply get_data_agrees, same_outside_refl.
Qed.

End VerboseFacts.

Section FetchFacts.

Variable X : Collaborators.

Implicit Types (st : state X) (url : string) (verbose : bool).

Lemma when_print_fetches verbose o st :
  fst (when X verbose (print X o) st) = Return tt /\
  world X (snd (when X verbose (print X o) st)) = world X st /\
  fetches (trace X (snd (when X verbose (print X o) st))) = fetches (trace X st).
Proof.
  destruct verbose; simpl; [|done]. split; [done|]. split; [done|].
  rewrite fetches_snoc. simpl. by rewrite app_nil_r.
Qed.

Lemma open_page_fetches url verbose st :
  exists l,
    fetches (trace X (snd (open_page X url verbose st))) = fetches (trace X st) ++ l /\
    (l = [FromUrl url] \/ l = [FromUrl url; GetData]) /\
    (forall data, fst (open_page X url verbose st) = Return data ->
                  l = [FromUrl url; GetData]).
Proof.
  unfold open_page, call, when, print, mbind, M_bind, mret, M_ret; simpl.
  destruct (from_url X url (world X st)) as [[err|page] w]; simpl.
  - exists [FromUrl url]. rewrite fetches_snoc. simpl. split; [done|].
    split; [by left|]. by intros data.
  - destruct (page_get_data X page w) as [[err|data] w']; simpl.
    + exists [FromUrl url; GetData]. rewrite !fetches_snoc. simpl.
      rewrite <- app_assoc. split; [done|]. split; [by right|done].
    + exists [FromUrl url; GetData].
      destruct verbose; simpl; rewrite !fetches_snoc; simpl;
        rewrite ?app_nil_r, <- app_assoc; (split; [done|]); split; by try right.
Qed.

Lemma get_url_trace url verbose st :
  exists l,
    fetches (trace X (snd (get_url X url verbose st))) = fetches (trace X st) ++ l /\
    (l = [] \/ l = [FromUrl url] \/ l = [FromUrl url; GetData]) /\
    (l <> [] -> exists parts, urlsplit X url = Some parts /\
                              endswith (netloc parts) SITE = true) /\
    (forall data, fst (get_url X url verbose st) = Return data ->
                  l = [FromUrl url; GetData]).
Proof.
  rewrite get_url_unfold.
  destruct (urlsplit X url) as [parts|] eqn:Hp.
  - destruct (endswith (netloc parts) SITE) eqn:He.
    + destruct (open_page_fetches url verbose (opened X url verbose st))
        as (l & Hl & Hcases & Hret).
      exists l. rewrite Hl, opened_fetches. split; [done|].
      split; [by right|]. split; [eauto|done].
    + exists []. simpl. rewrite opened_fetches, app_nil_r.
      split; [done|]. split; [by left|]. split; [done|]. by intros data.
  - exists []. simpl. rewrite opened_fetches, app_nil_r.
    split; [done|]. split; [by left|]. split; [done|]. by intros data.
Qed.

Lemma report_prints verbose results : prints_only X (report X verbose results).
Proof.
  unfold report. apply prints_only_when. destruct results; [apply prints_only_print|].
  apply prints_only_seq; [apply prints_only_print|apply prints_only_items].
Qed.

(** [search], step by step. *)
Lemma search_unfold ref verbose st :
  search X ref verbose st =
  let u := SEARCH_BASE (quote X ref) in
  let st0 := if verbose then log X (Print (SearchFor ref)) st else st in
  let st1 w := {| world := w; trace := trace X st0 ++ [MakeSoup u] |} in
  match make_soup X u (world X st) with
  | (inl err, w) => (Raise (ExternalError err), st1 w)
  | (inr parsed_html, w) =>
      match search_results parsed_html with
      | Raise e => (Raise e, st1 w)
      | Return results => (Return results, snd (report X verbose results (st1 w)))
      end
  end.
Proof.
  cbv zeta. unfold search.
  change (when X verbose
            match ?r with
            | [] => print X NoItemsFound
            | _ :: _ => print X (ItemsFound (length ?r));; print_items X ?r
            end) with (report X verbose r).
  unfold mbind, M_bind, call, lift, mret, M_ret.
  assert (Hw : world X (if verbose then log X (Print (SearchFor ref)) st else st)
               = world X st) by (by destruct verbose).
  replace (when X verbose (print X (SearchFor ref)) st)
    with (Return (E:=ExtError X) tt,
          if verbose then log X (Print (SearchFor ref)) st else st)
    by (by destruct verbose).
  rewrite Hw.
  destruct (make_soup X (SEARCH_BASE (quote X ref)) (world X st))
    as [[err|parsed_html] w]; [done|].
  destruct (search_results parsed_html) as [results|e]; [|done].
  match goal with
  | |- context [report X verbose results ?s] =>
      destruct (report_prints verbose results s) as [Hv _];
      destruct (report X verbose results s) as [[[]|e] s2]; simpl in Hv; [done|done]
  end.
Qed.

Lemma search_trace ref verbose st :
  fetches (trace X (snd (search X ref verbose st)))
  = fetches (trace X st) ++ [MakeSoup (SEARCH_BASE (quote X ref))] /\
  world X (snd (search X ref verbose st))
  = snd (make_soup X (SEARCH_BASE (quote X ref)) (world X st)) /\
  (forall err,
      fst (make_soup X (SEARCH_BASE (quote X ref)) (world X st)) = inl err ->
      fst (search X ref verbose st) = Raise (ExternalError err)).
Proof.
  rewrite search_unfold. cbv zeta.
  assert (Hf : fetches (trace X (if verbose then log X (Print (SearchFor ref)) st else st))
               = fetches (trace X st)).
  { destruct verbose; [|done]. simpl. rewrite fetches_snoc. simpl. by rewrite app_nil_r. }
  destruct (make_soup X (SEARCH_BASE (quote X ref)) (world X st))
    as [[err|parsed_html] w]; simpl.
  - rewrite fetches_snoc, Hf. simpl. split; [done|]. split; [done|].
    by intros ? [= ->].
  - destruct (search_results parsed_html) as [results|e]; simpl.
    + match goal with
      | |- context [report X verbose results ?s] =>
          destruct (report_prints verbose results s) as (_ & Hw1 & Hf1)
      end.
      rewrite Hf1, Hw1. simpl. rewrite fetches_snoc, Hf. simpl.
      split; [done|]. split; [done|]. by intros err.
    + rewrite fetches_snoc, Hf. simpl. split; [done|]. split; [done|]. by intros err.
Qed.

(** X7: whatever the url, [get_url] fetches nothing, or the page of that
    url alone: [SecurityPage.from_url(url)], then [page.get_data()] if
    that returned.  It fetches only when [urlsplit] gave the url a network
    location that ends with the site domain. *)
Theorem get_url_fetches url verbose st :
  exists l,
    fetches (trace X (snd (get_url X url verbose st))) = fetches (trace X st) ++ l /\
    (l = [] \/ l = [FromUrl url] \/ l = [FromUrl url; GetData]) /\
    (l <> [] -> exists parts, urlsplit X url = Some parts /\
                              endswith (netloc parts) SITE = true) /\
    (forall data, fst (get_url X url verbose st) = Return data ->
                  l = [FromUrl url; GetData]).
Proof. apply get_url_trace. Qed.

(** X8: when [search] returns, it has fetched once: the results page of
    the quoted search term.  The world it leaves is the one [make_soup]
    left, and its answer is what [search_results] makes of the page
    [make_soup] returned. *)
Theorem search_fetches_once ref verbose st results st' :
  search X ref verbose st = (Return results, st') ->
  fetches (trace X st')
  = fetches (trace X st) ++ [MakeSoup (SEARCH_BASE (quote X ref))] /\
  exists parsed_html,
    make_soup X (SEARCH_BASE (quote X ref)) (world X st)
    = (inr parsed_html, world X st') /\
    search_results (E:=ExtError X) parsed_html = Return results.
Proof.
  intros H. destruct (search_trace ref verbose st) as (Hf & Hw & _).
  rewrite H in Hf, Hw. simpl in Hf, Hw. split; [exact Hf|].
  rewrite search_unfold in H. cbv zeta in H.
  destruct (make_soup X (SEARCH_BASE (quote X ref)) (world X st))
    as [[err|parsed_html] w]; [done|].
  destruct (search_results parsed_html) as [results'|e] eqn:Hr; [|done].
  injection H as <- _. simpl in Hw. subst w. eauto.
Qed.

Lemma getitem_cases (item : candidate) key st :
  getitem X item key st =
  match item !! key with
  | Some v => (Return v, st)
  | None => (Raise KeyError, st)
  end.
Proof. unfold getitem. by destruct (item !! key). Qed.

Lemma get_data_loop_cons (item : candidate) rest verbose output st :
  get_data_loop X (item :: rest) verbose output st =
  match item !! "url" with
  | None => (Raise KeyError, st)
  | Some url =>
      match get_url X url verbose st with
      | (Raise e, st2) => (Raise e, st2)
      | (Return data, st2) =>
          get_data_loop X rest verbose
            (if truth X data then output ++ [data] else output) st2
      end
  end.
Proof.
  simpl. unfold mbind, M_bind. rewrite getitem_cases.
  destruct (item !! "url") as [url|]; [|done].
  by destruct (get_url X url verbose st) as [[data|e] st2].
Qed.

Lemma get_data_loop_fetches results verbose output st out st' :
  get_data_loop X results verbose output st = (Return out, st') ->
  fetches (trace X st') = fetches (trace X st) ++ flat_map fetches_of results.
Proof.
  revert output st. induction results as [|item rest IH]; intros output st.
  - simpl. intros [= _ <-]. by rewrite app_nil_r.
  - rewrite get_data_loop_cons.
    destruct (item !! "url") as [url|] eqn:Hu; [|done].
    destruct (get_url_trace url verbose st) as (l & Hl & _ & _ & Hret).
    destruct (get_url X url verbose st) as [[data|e] st2]; [|done].
    simpl in Hl, Hret. rewrite (Hret data eq_refl) in Hl.
    intros H. apply IH in H. rewrite H, Hl. simpl. unfold fetches_of at 2.
    rewrite Hu. simpl. by rewrite <- app_assoc.
Qed.

(** X9: when [get_data] returns, it has fetched the results page and then,
    for each dictionary of [search] in order, the page of its url:
    [from_url] and [get_data] once each, also for the dictionaries whose
    data it leaves out. *)
Theorem get_data_fetch_order ref verbose st out st' :
  get_data X ref verbose st = (Return out, st') ->
  exists results,
    fst (search X ref verbose st) = Return results /\
    fetches (trace X st')
    = fetches (trace X st)
      ++ MakeSoup (SEARCH_BASE (quote X ref)) :: flat_map fetches_of results.
Proof.
  unfold get_data, mbind, M_bind.
  destruct (search_trace ref verbose st) as (Hf & _ & _).
  destruct (search X ref verbose st) as [[results|e] st1]; [|done].
  intros H. exists results. split; [done|].
  apply get_data_loop_fetches in H. rewrite H. simpl in Hf. rewrite Hf.
  by rewrite <- app_assoc.
Qed.

Lemma open_page_Raise url verbose st e :
  fst (open_page X url verbose st) = Raise e -> exists err, e = ExternalError err.
Proof.
  unfold open_page, call, when, print, mbind, M_bind, mret, M_ret; simpl.
  destruct (from_url X url (world X st)) as [[err|page] w]; simpl.
  - intros [= <-]. eauto.
  - destruct (page_get_data X page w) as [[err|data] w']; simpl.
    + intros [= <-]. eauto.
    + by destruct verbose.
Qed.

Lemma get_url_Raise url verbose st e :
  fst (get_url X url verbose st) = Raise e ->
  e = ValueError \/ e = DomainError url \/ exists err, e = ExternalError err.
Proof.
  rewrite get_url_unfold.
  destruct (urlsplit X url) as [parts|]; [|intros [= <-]; by left].
  destruct (endswith (netloc parts) SITE).
  - intros H. apply open_page_Raise in H. by right; right.
  - intros [= <-]. right; by left.
Qed.

Lemma search_results_urls {E} parsed_html (results : list candidate) :
  search_results (E:=E) parsed_html = Return results ->
  Forall (fun c => is_Some (c !! "url")) results.
Proof.
  intros H.
  destruct (search_results_Return _ _ H) as (stocks & funds & -> & Hs & Hf).
  apply Forall_app. split.
  - eapply Forall2_Forall_r; [exact Hs|]. intros row c Hc.
    apply stock_item_Return in Hc as (_ & href & _ & ->). eauto.
  - destruct (first_family parsed_html) as [ty|]; [|subst; constructor].
    eapply Forall2_Forall_r; [exact Hf|]. intros row c Hc.
    apply fund_item_Return in Hc as (_ & href & _ & ->). eauto.
Qed.

Lemma search_Return ref verbose st results st' :
  search X ref verbose st = (Return results, st') ->
  exists parsed_html, search_results (E:=ExtError X) parsed_html = Return results.
Proof.
  rewrite search_unfold. cbv zeta.
  destruct (make_soup X _ _) as [[err|parsed_html] w]; [done|].
  destruct (search_results parsed_html) as [results'|e] eqn:Hr; [|done].
  intros [= <- _]. eauto.
Qed.

Lemma search_Raise ref verbose st e :
  fst (search X ref verbose st) = Raise e ->
  e = AttributeError \/ e = IndexError \/ exists err, e = ExternalError err.
Proof.
  rewrite search_unfold. cbv zeta.
  destruct (make_soup X _ _) as [[err|parsed_html] w]; simpl.
  - intros [= <-]. right; right; eauto.
  - destruct (search_results parsed_html) as [results'|e'] eqn:Hr; simpl; [done|].
    intros [= ->]. apply search_results_Raise in Hr as [-> | ->]; auto.
Qed.

Lemma get_data_loop_Raise results verbose output st e :
  Forall (fun c => is_Some (c !! "url")) results ->
  fst (get_data_loop X results verbose output st) = Raise e ->
  e = ValueError \/ (exists url, e = DomainError url) \/
  exists err, e = ExternalError err.
Proof.
  revert output st. induction results as [|item rest IH]; intros output st Hall.
  - done.
  - apply Forall_cons in Hall as [[url Hurl] Hall].
    rewrite get_data_loop_cons, Hurl.
    destruct (get_url X url verbose st) as [[data|e'] st2] eqn:Hg.
    + by apply IH.
    + simpl. intros [= ->].
      assert (Hg' : fst (get_url X url verbose st) = Raise e) by (by rewrite Hg).
      apply get_url_Raise in Hg' as [->|[->|?]]; eauto.
Qed.

(** X10: [get_data] never ends with a [KeyError]: every dictionary of
    [search] has the [url] it reads.  What it can end with is the
    [AttributeError] or [IndexError] of a row [search] could not read, the
    [ValueError] of [urlsplit], the refusal of a url off the site, or what
    a collaborator raised. *)
Theorem get_data_errors ref verbose st e :
  fst (get_data X ref verbose st) = Raise e ->
  e <> KeyError /\
  (e = AttributeError \/ e = IndexError \/ e = ValueError \/
   (exists url, e = DomainError url) \/ exists err, e = ExternalError err).
Proof.
  unfold get_data, mbind, M_bind.
  destruct (search X ref verbose st) as [[results|e'] st1] eqn:Hs.
  - intros H. destruct (search_Return _ _ _ _ _ Hs) as [parsed_html Hp].
    apply search_results_urls in Hp.
    apply (get_data_loop_Raise _ _ _ _ _ Hp) in H
      as [->|[[url ->]|[err ->]]]; split; try done; eauto 10.
  - simpl. intros [= ->].
    assert (Hs' : fst (search X ref verbose st) = Raise e) by (by rewrite Hs).
    apply search_Raise in Hs' as [->|[->|[err ->]]]; split; try done; eauto 10.
Qed.

Lemma resolve_all_Return (results : list candidate) verbose st datas st1
    (rest : list candidate) :
  resolve_all X results verbose st = (Return datas, st1) ->
  resolve_all X (results ++ rest) verbose st =
  match resolve_all X rest verbose st1 with
  | (Return datas', st2) => (Return (datas ++ datas'), st2)
  | (Raise e, st2) => (Raise e, st2)
  end.
Proof.
  revert st datas. induction results as [|item results IH]; intros st datas.
  - intros [= <- <-]. simpl. by destruct (resolve_all X rest verbose st) as [[?|?] ?].
  - simpl app. rewrite !resolve_all_cons.
    destruct (getitem X item "url" st) as [[url|e] st0]; [|done].
    destruct (get_url X url verbose st0) as [[data|e] st2]; [|done].
    destruct (resolve_all X results verbose st2) as [[datas0|e] st3] eqn:Hr; [|done].
    intros [= <- <-]. rewrite (IH _ _ Hr).
    by destruct (resolve_all X rest verbose st3) as [[?|?] ?].
Qed.

(** X11: [get_data] stops at the first dictionary that [get_url] fails on:
    it ends with that exception in the state that call left, so none of
    the dictionaries after it is fetched, and the data collected before
    it are lost. *)
Theorem get_data_loop_stops (pre : list candidate) (item : candidate)
    (rest : list candidate) verbose output st datas st1 url e st2 :
  resolve_all X pre verbose st = (Return datas, st1) ->
  item !! "url" = Some url ->
  get_url X url verbose st1 = (Raise e, st2) ->
  get_data_loop X (pre ++ item :: rest) verbose output st = (Raise e, st2).
Proof.
  intros Hpre Hurl Hget. rewrite get_data_loop_mapM.
  unfold mbind, M_bind.
  rewrite (resolve_all_Return _ _ _ _ _ (item :: rest) Hpre).
  rewrite resolve_all_cons, getitem_cases, Hurl, Hget. done.
Qed.

End FetchFacts.

(** ** The domain test *)

Lemma length_append (a b : string) :
  String.length (a +:+ b) = String.length a + String.length b.
Proof.
  induction a as [|c a IH]; [done|].
  change (S (String.length (a +:+ b)) = S (String.length a + String.length b)).
  by rewrite IH.
Qed.

Lemma substring_all (s : string) : substring 0 (String.length s) s = s.
Proof. induction s as [|c s IH]; simpl; [done|]. by rewrite IH. Qed.

Lemma substring_append (pre p : string) :
  substring (String.length pre) (String.length p) (pre +:+ p) = p.
Proof.
  induction pre as [|c pre IH]; [apply substring_all|].
  change (substring (String.length pre) (String.length p) (pre +:+ p) = p).
  exact IH.
Qed.

Lemma substring_split (s : string) (n : nat) :
  n <= String.length s ->
  s = substring 0 n s +:+ substring n (String.length s - n) s.
Proof.
  revert n. induction s as [|c s IH]; intros n Hn.
  - by destruct n.
  - destruct n as [|n].
    + simpl. by rewrite substring_all.
    + simpl in Hn.
      change (String c s = String c (substring 0 n s +:+
                                     substring n (String.length s - n) s)).
      f_equal. apply IH. lia.
Qed.

(** [s.endswith(p)] holds exactly when [s] is some text followed by [p]. *)
Lemma endswith_iff (s p : string) :
  endswith s p = true <-> exists pre, s = pre +:+ p.
Proof.
  unfold endswith. split.
  - intros H. apply andb_true_iff in H as [Hle Heq].
    apply Nat.leb_le in Hle. apply String.eqb_eq in Heq.
    exists (substring 0 (String.length s - String.length p) s).
    pose proof (substring_split s (String.length s - String.length p)) as Hsp.
    replace (String.length s - (String.length s - String.length p))
      with (String.length p) in Hsp by lia.
    rewrite Heq in Hsp. apply Hsp. lia.
  - intros [pre ->]. rewrite length_append. apply andb_true_iff. split.
    + apply Nat.leb_le. lia.
    + replace (String.length pre + String.length p - String.length p)
        with (String.length pre) by lia.
      rewrite substring_append. apply String.eqb_refl.
Qed.

Section DomainFacts.

Variable X : Collaborators.

Implicit Types (st : state X) (url : string) (verbose : bool).

(** X12: the domain test of [get_url] is a test of the last characters of
    the network location and of nothing else: a url that [urlsplit]
    splits is refused exactly when its network location is not some text
    followed by ['morningstar.co.uk']; whether a dot stands in front of
    the domain, or a user name, plays no part. *)
Theorem get_url_refuses_iff url verbose st parts :
  urlsplit X url = Some parts ->
  (fst (get_url X url verbose st) = Raise (DomainError url) <->
   forall pre, netloc parts <> pre +:+ "morningstar.co.uk").
Proof.
  intros Hp. rewrite get_url_unfold, Hp.
  destruct (endswith (netloc parts) SITE) eqn:He.
  - apply endswith_iff in He as [pre Hpre]. split.
    + intros H.
      destruct (open_page_spec X url verbose (opened X url verbose st)) as [_ Hn].
      by destruct (Hn url).
    + intros H. by destruct (H pre).
  - split; [|done]. intros _ pre Hpre.
    assert (endswith (netloc parts) SITE = true) by (apply endswith_iff; eauto).
    congruence.
Qed.

(** X13: with [urlsplit] as the standard library has it, a url that
    [fix_url] made of a link target beginning with ['/'] always passes the
    domain test of [get_url]: the page is opened. *)
Theorem get_url_fix_url href verbose st :
  urlsplit X = Urllib.urlsplit ->
  startswith href "/" = true ->
  get_url X (fix_url href) verbose st
  = open_page X (fix_url href) verbose (opened X (fix_url href) verbose st).
Proof.
  intros HX Hs. rewrite get_url_unfold, HX.
  destruct (fix_url_site_relative href Hs) as (parts & -> & _ & ->).
  reflexivity.
Qed.

End DomainFacts.

(** ** More on [dmy_2_date] *)

Section DateFieldFacts.

Context {E : Type}.

Lemma digit_value a :
  digit a = true ->
  Ascii.eqb a " " = false /\ Ascii.eqb a "/" = false /\
  (0 <= Z.of_nat (nat_of_ascii a) - 48 <= 9)%Z.
Proof.
  intros H. apply digit_cases in H. simpl in H.
  repeat (destruct H as [<-|H]; [vm_compute; repeat split; congruence|]).
  destruct H.
Qed.

Lemma day_field_no_slash d : day_field d = true -> Urllib.contains "/" d = false.
Proof.
  destruct d as [|a [|b [|]]]; try discriminate; simpl.
  - intros Ha. apply digit_value in Ha as (_ & -> & _). done.
  - intros H. apply andb_true_iff in H as [Ha Hb].
    apply digit_value in Hb as (_ & -> & _).
    apply orb_true_iff in Ha as [Ha|Ha].
    + apply digit_value in Ha as (_ & -> & _). done.
    + apply Ascii.eqb_eq in Ha as ->. done.
Qed.

Lemma month_field_no_slash m : month_field m = true -> Urllib.contains "/" m = false.
Proof.
  destruct m as [|a [|b [|]]]; try discriminate; simpl.
  - intros Ha. apply digit_value in Ha as (_ & -> & _). done.
  - intros H. apply andb_true_iff in H as [Ha Hb].
    apply digit_value in Ha as (_ & -> & _).
    apply digit_value in Hb as (_ & -> & _). done.
Qed.

Lemma year_field_length y : year_field y = true -> String.length y = 4.
Proof. by destruct y as [|a [|b [|c [|d [|]]]]]. Qed.

Lemma split_unique d d' r r' :
  Urllib.contains "/" d = false -> Urllib.contains "/" d' = false ->
  d +:+ String "/" r = d' +:+ String "/" r' -> d = d' /\ r = r'.
Proof.
  revert d'. induction d as [|a d IH]; intros [|a' d']; simpl.
  - intros _ _ [= ->]. done.
  - intros _ H [= <- _]. done.
  - intros H _ [= -> _]. done.
  - intros H H'. apply orb_false_iff in H as [_ H], H' as [_ H'].
    intros [= <- Heq]. destruct (IH d' H H' Heq) as [<- <-]. done.
Qed.

Lemma string_app_assoc (a b c : string) : (a +:+ b) +:+ c = a +:+ (b +:+ c).
Proof.
  induction a as [|x a IH]; [done|].
  change (String x ((a +:+ b) +:+ c) = String x (a +:+ (b +:+ c))). by rewrite IH.
Qed.

(** The fields of a text that has them are its own. *)
Lemma fields_unique d m y d' m' y' :
  day_field d = true -> month_field m = true ->
  day_field d' = true -> month_field m' = true ->
  d +:+ "/" +:+ m +:+ "/" +:+ y = d' +:+ "/" +:+ m' +:+ "/" +:+ y' ->
  d = d' /\ m = m' /\ y = y'.
Proof.
  intros Hd Hm Hd' Hm' Heq.
  apply split_unique in Heq as [<- Heq]; try by apply day_field_no_slash.
  apply split_unique in Heq as [<- <-]; try by apply month_field_no_slash.
  done.
Qed.

(** What [strptime] does with a day, a month and a year between
    slashes. *)
Lemma strptime_dmY_fields d m y :
  day_field d = true -> month_field m = true -> year_field y = true ->
  strptime_dmY (E:=E) (d +:+ "/" +:+ m +:+ "/" +:+ y) =
  if valid_date (int y) (int m) (int d)
  then Return {| year := int y; month := int m; day := int d |}
  else Raise ValueError.
Proof.
  intros Hd Hm Hy.
  destruct (valid_date (int y) (int m) (int d)) eqn:Hv.
  - apply strptime_dmY_names. exists d, m, y. by repeat split.
  - destruct (strptime_dmY_total (E:=E) (d +:+ "/" +:+ m +:+ "/" +:+ y))
      as [[dt Hdt]|Hr]; [|done].
    apply strptime_dmY_names in Hdt
      as (d' & m' & y' & Heq & Hd' & Hm' & Hy' & Hv' & _).
    destruct (fields_unique _ _ _ _ _ _ Hd Hm Hd' Hm' Heq) as (<- & <- & <-).
    congruence.
Qed.

(** X15: [dmy_2_date] tolerates nothing after the year: a text it reads
    is refused with [ValueError] as soon as any character follows it. *)
Theorem dmy_2_date_no_trailing text dt suffix :
  dmy_2_date (E:=E) text = Return dt ->
  suffix <> "" ->
  dmy_2_date (E:=E) (text +:+ suffix) = Raise ValueError.
Proof.
  unfold dmy_2_date. intros H Hsuf.
  apply strptime_dmY_names in H as (d & m & y & -> & Hd & Hm & Hy & _ & _).
  destruct (strptime_dmY_total (E:=E) ((d +:+ "/" +:+ m +:+ "/" +:+ y) +:+ suffix))
    as [[dt' Hdt]|Hr]; [|done].
  apply strptime_dmY_names in Hdt
    as (d' & m' & y' & Heq & Hd' & Hm' & Hy' & _ & _).
  rewrite string_app_assoc in Heq.
  change (("/" +:+ m +:+ "/" +:+ y) +:+ suffix)
    with (String "/" ((m +:+ "/" +:+ y) +:+ suffix)) in Heq.
  rewrite string_app_assoc in Heq.
  change (("/" +:+ y) +:+ suffix) with ("/" +:+ (y +:+ suffix)) in Heq.
  destruct (fields_unique _ _ _ _ _ _ Hd Hm Hd' Hm' Heq) as (_ & _ & Hyy).
  apply year_field_length in Hy, Hy'. rewrite <- Hyy, length_append in Hy'.
  destruct suffix; [done|]. simpl in Hy'. lia.
Qed.

Lemma year_field_int y : year_field y = true -> (0 <= int y <= 9999)%Z.
Proof.
  destruct y as [|a [|b [|c [|d [|]]]]]; try discriminate; simpl.
  intros H. apply andb_true_iff in H as [H Hd].
  apply andb_true_iff in H as [H Hc]. apply andb_true_iff in H as [Ha Hb].
  apply digit_value in Ha as (Ha & _ & ?), Hb as (Hb & _ & ?),
                       Hc as (Hc & _ & ?), Hd as (Hd & _ & ?).
  unfold int; simpl. rewrite Ha, Hb, Hc, Hd. lia.
Qed.

(** X16: the 29th of February is read in leap years and in no other: for
    every four-digit year text, [dmy_2_date] returns on ["29/02/" + year]
    exactly when the year is not 0000 and is divisible by 4 and not by
    100, or by 400. *)
Theorem dmy_2_date_leap_day y :
  year_field y = true ->
  (dmy_2_date (E:=E) ("29/02/" +:+ y)
   = Return {| year := int y; month := 2; day := 29 |} <->
   is_leap (int y) = true /\ int y <> 0%Z) /\
  (is_leap (int y) = false \/ int y = 0%Z ->
   dmy_2_date (E:=E) ("29/02/" +:+ y) = Raise ValueError).
Proof.
  intros Hy. unfold dmy_2_date.
  pose proof (year_field_int y Hy) as Hb.
  change ("29/02/" +:+ y) with ("29" +:+ "/" +:+ "02" +:+ "/" +:+ y).
  rewrite (strptime_dmY_fields "29" "02" y eq_refl eq_refl Hy).
  change (int "02") with 2%Z. change (int "29") with 29%Z.
  unfold valid_date, days_in_month. simpl (2 =? 2)%Z. cbv iota.
  destruct (is_leap (int y)) eqn:Hl.
  - destruct (Z.eq_dec (int y) 0%Z) as [H0|H0].
    + rewrite H0. simpl. split; [|done]. split; [done|]. by intros [_ ?].
    + replace (1 <=? int y)%Z with true by (symmetry; apply Z.leb_le; lia).
      replace (int y <=? 9999)%Z with true by (symmetry; apply Z.leb_le; lia).
      simpl. split; [done|]. by intros [?|?].
  - rewrite !andb_false_r. split; [|done]. split; [done|]. by intros [? _].
Qed.

(** X17: a leading zero or a leading blank in the day, and a leading zero
    in the month, make no difference: for digits [a], [b] and a four-digit
    year, the texts [a/b/year], [0a/0b/year] and [ a/b/year] are read
    alike or refused alike. *)
Theorem dmy_2_date_padding a b y :
  digit a = true -> digit b = true -> year_field y = true ->
  dmy_2_date (E:=E) (String "0" (String a "") +:+ "/" +:+
                     String "0" (String b "") +:+ "/" +:+ y)
  = dmy_2_date (E:=E) (String a "" +:+ "/" +:+ String b "" +:+ "/" +:+ y) /\
  dmy_2_date (E:=E) (String " " (String a "") +:+ "/" +:+ String b "" +:+ "/" +:+ y)
  = dmy_2_date (E:=E) (String a "" +:+ "/" +:+ String b "" +:+ "/" +:+ y).
Proof.
  intros Ha Hb Hy. unfold dmy_2_date.
  assert (Hd0 : day_field (String "0" (String a "")) = true) by (simpl; by rewrite Ha).
  assert (Hdb : day_field (String " " (String a "")) = true) by (simpl; by rewrite Ha).
  assert (Hd1 : day_field (String a "") = true) by done.
  assert (Hm0 : month_field (String "0" (String b "")) = true) by (simpl; by rewrite Hb).
  assert (Hm1 : month_field (String b "") = true) by done.
  rewrite (strptime_dmY_fields _ _ _ Hd0 Hm0 Hy), (strptime_dmY_fields _ _ _ Hd1 Hm1 Hy),
          (strptime_dmY_fields _ _ _ Hdb Hm1 Hy).
  destruct (digit_value a Ha) as (Hab & _ & _), (digit_value b Hb) as (Hbb & _ & _).
  assert (Hi0 : int (String "0" (String a "")) = int (String a "")).
  { unfold int; simpl. rewrite Hab.
    change (Z.of_nat (nat_of_ascii "0")) with 48%Z. lia. }
  assert (Hib : int (String " " (String a "")) = int (String a "")).
  { unfold int; simpl. by rewrite Hab. }
  assert (Hj0 : int (String "0" (String b "")) = int (String b "")).
  { unfold int; simpl. rewrite Hbb.
    change (Z.of_nat (nat_of_ascii "0")) with 48%Z. lia. }
  rewrite Hi0, Hib, Hj0. done.
Qed.

End DateFieldFacts.

(** ** The further properties on the examples *)

Example search_results_page_no_ticker :
  search_results (E:=Empty_set) Demo.page_no_ticker = Raise IndexError.
Proof. vm_compute. reflexivity. Qed.

(** X4 on [page_no_ticker]: the stock row without a ticker cell is the
    row the [IndexError] comes from. *)
Lemma search_error_kinds_witness :
  search_results (E:=Empty_set) Demo.page_no_ticker = Raise IndexError /\
  exists row,
    row ∈ searched_rows Demo.page_no_ticker /\
    (stock_item (E:=Empty_set) row = Raise IndexError \/
     exists ty, first_family Demo.page_no_ticker = Some ty /\
                fund_item (E:=Empty_set) ty row = Raise IndexError).
Proof.
  split; [exact search_results_page_no_ticker|].
  exact (proj2 (search_error_kinds (E:=Empty_set) Demo.page_no_ticker IndexError
                  search_results_page_no_ticker)).
Defined.

(** X5 on the fund row of [page_all]. *)
Lemma search_keys_witness :
  (is_stock Demo.beta = true /\ dom Demo.beta = stock_keys) \/
  (is_stock Demo.beta = false /\ dom Demo.beta = fund_keys).
Proof.
  apply (search_keys (E:=Empty_set) Demo.page_all
           [Demo.acme; Demo.apex; Demo.beta] Demo.beta).
  - exact search_results_page_all.
  - apply list_elem_of_further, list_elem_of_further, list_elem_of_here.
Defined.

Example search_env :
  search Demo.env "acme" false Demo.start
  = (Return [Demo.acme; Demo.apex; Demo.beta],
     snd (search Demo.env "acme" false Demo.start)).
Proof. vm_compute. reflexivity. Qed.

(** X8 in the example world. *)
Lemma search_fetches_once_witness :
  fetches (trace Demo.env (snd (search Demo.env "acme" false Demo.start)))
  = fetches (trace Demo.env Demo.start)
    ++ [MakeSoup (SEARCH_BASE (quote Demo.env "acme"))] /\
  exists parsed_html,
    make_soup Demo.env (SEARCH_BASE (quote Demo.env "acme")) (world Demo.env Demo.start)
    = (inr parsed_html, world Demo.env (snd (search Demo.env "acme" false Demo.start))) /\
    search_results (E:=ExtError Demo.env) parsed_html
    = Return [Demo.acme; Demo.apex; Demo.beta].
Proof.
  exact (search_fetches_once Demo.env "acme" false Demo.start _ _ search_env).
Defined.

Example get_data_env :
  get_data Demo.env "acme" false Demo.start
  = (Return [Some "http://www.morningstar.co.uk/stock/1";
             Some "http://www.morningstar.co.uk/fund/1"],
     snd (get_data Demo.env "acme" false Demo.start)).
Proof. vm_compute. reflexivity. Qed.

(** X9 in the example world: the results page, then the pages of Acme
    Corp, Apex Plc and Beta Fund, each opened and read once. *)
Lemma get_data_fetch_order_witness :
  exists results,
    fst (search Demo.env "acme" false Demo.start) = Return results /\
    fetches (trace Demo.env (snd (get_data Demo.env "acme" false Demo.start)))
    = fetches (trace Demo.env Demo.start)
      ++ MakeSoup (SEARCH_BASE (quote Demo.env "acme"))
         :: flat_map fetches_of results.
Proof.
  exact (get_data_fetch_order Demo.env "acme" false Demo.start _ _ get_data_env).
Defined.

Example get_data_env_relative :
  fst (get_data Demo.env_relative "beta" false Demo.start_relative)
  = Raise (DomainError "x.html").
Proof. vm_compute. reflexivity. Qed.

(** X10 in the world of [page_relative]: the relative link of the fund row
    ends [get_data] with the refusal of ["x.html"]. *)
Lemma get_data_errors_witness :
  fst (get_data Demo.env_relative "beta" false Demo.start_relative)
  = Raise (DomainError "x.html") /\
  DomainError (E:=Empty_set) "x.html" <> KeyError.
Proof.
  split; [exact get_data_env_relative|].
  exact (proj1 (get_data_errors Demo.env_relative "beta" false Demo.start_relative
                  (DomainError "x.html") get_data_env_relative)).
Defined.

(** X11 in the example world: Acme Corp is resolved, the relative link
    after it is refused, and Apex Plc is not fetched. *)
Lemma get_data_loop_stops_witness :
  get_data_loop Demo.env [Demo.acme; Demo.beta_relative; Demo.apex] false []
    Demo.start
  = (Raise (DomainError "x.html"),
     Build_state Demo.env tt
       [FromUrl "http://www.morningstar.co.uk/stock/1"; GetData]).
Proof.
  refine (get_data_loop_stops Demo.env [Demo.acme] Demo.beta_relative [Demo.apex]
            false [] Demo.start
            [Some "http://www.morningstar.co.uk/stock/1"]
            (Build_state Demo.env tt
               [FromUrl "http://www.morningstar.co.uk/stock/1"; GetData])
            "x.html" (DomainError "x.html")
            (Build_state Demo.env tt
               [FromUrl "http://www.morningstar.co.uk/stock/1"; GetData])
            _ _ _).
  - vm_compute; reflexivity.
  - vm_compute; reflexivity.
  - vm_compute; reflexivity.
Defined.

(** X12 in the example world: the host [evilmorningstar.co.uk] ends with
    the site domain and is not refused. *)
Lemma get_url_refuses_iff_witness :
  fst (get_url Demo.env "http://evilmorningstar.co.uk/x" false Demo.start)
  <> Raise (DomainError "http://evilmorningstar.co.uk/x").
Proof.
  intros H.
  refine (proj1 (get_url_refuses_iff Demo.env "http://evilmorningstar.co.uk/x"
                   false Demo.start
                   {| scheme := "http"; netloc := "evilmorningstar.co.uk";
                      path := "/x"; query := ""; fragment := "" |} _) H "evil" _).
  - vm_compute; reflexivity.
  - reflexivity.
Defined.

(** X13 in the example world, on the link target of Acme Corp. *)
Lemma get_url_fix_url_witness :
  get_url Demo.env (fix_url "/stock/1") false Demo.start
  = open_page Demo.env (fix_url "/stock/1") false
      (opened Demo.env (fix_url "/stock/1") false Demo.start).
Proof.
  apply (get_url_fix_url Demo.env "/stock/1" false Demo.start); reflexivity.
Defined.

Example dmy_2_date_5_march :
  dmy_2_date (E:=Empty_set) "05/03/2022"
  = Return {| year := 2022; month := 3; day := 5 |}.
Proof. vm_compute. reflexivity. Qed.

(** X15 on ["05/03/2022"] followed by a blank. *)
Lemma dmy_2_date_no_trailing_witness :
  dmy_2_date (E:=Empty_set) ("05/03/2022" +:+ " ") = Raise ValueError.
Proof.
  apply (dmy_2_date_no_trailing (E:=Empty_set) "05/03/2022"
           {| year := 2022; month := 3; day := 5 |} " ").
  - exact dmy_2_date_5_march.
  - discriminate.
Defined.

(** X16 on the years 2024, 1900 and 0000. *)
Lemma dmy_2_date_leap_day_witness :
  dmy_2_date (E:=Empty_set) "29/02/2024"
  = Return {| year := 2024; month := 2; day := 29 |} /\
  dmy_2_date (E:=Empty_set) "29/02/1900" = Raise ValueError /\
  dmy_2_date (E:=Empty_set) "29/02/0000" = Raise ValueError.
Proof.
  split; [|split].
  - apply (proj1 (dmy_2_date_leap_day (E:=Empty_set) "2024" eq_refl)).
    split; [reflexivity|discriminate].
  - apply (proj2 (dmy_2_date_leap_day (E:=Empty_set) "1900" eq_refl)).
    left; reflexivity.
  - apply (proj2 (dmy_2_date_leap_day (E:=Empty_set) "0000" eq_refl)).
    right; reflexivity.
Defined.

(** X17 on the fifth of March 2022. *)
Lemma dmy_2_date_padding_witness :
  dmy_2_date (E:=Empty_set) "05/03/2022" = dmy_2_date (E:=Empty_set) "5/3/2022" /\
  dmy_2_date (E:=Empty_set) " 5/3/2022" = dmy_2_date (E:=Empty_set) "5/3/2022".
Proof.
  exact (dmy_2_date_padding (E:=Empty_set) "5" "3" "2022" eq_refl eq_refl eq_refl).
Defined.
